(** * Link extractor backend (app.py): a shallow embedding and its properties

    The development follows [app.py] function by function.  Python values that
    come from JSON (the request body, the option dictionary, the records of
    the history file) are modelled by the inductive type [json]; Python
    exceptions by the type [result]; the history file, the data directory and
    the outgoing HTTP requests by the record [world], threaded through the
    handlers by a small state-and-exception monad.  The [requests] library
    is an interface: what a call of [requests.get] returns or raises, and
    the URLs it asks the network for, are left open; what the code does
    with the response ([raise_for_status], the use of its text) is part of
    the model.

    Strings are Stdlib strings, one [ascii] per character: the model covers
    Python strings over the code points 0..255, on which comparison,
    stripping and iteration are exactly the ones of Python.  The message
    literals of the source are kept as the bytes of the source file; no
    definition inspects them. *)

From stdpp Require Import base decidable option list sorting strings gmap.
From Stdlib Require Import ZArith Ascii Lia.
From Stdlib Require DecimalString.

Set Warnings "-register-all".

(** ** Python values and exceptions *)

(** The exceptions the code can meet.  [OtherException] stands for whatever
    a library raises that is not one of the four builtin classes. *)
Inductive exn : Type :=
  | AttributeError
  | TypeError
  | KeyError
  | ValueError
  | OtherException (what : string).

Inductive result (A : Type) : Type :=
  | Ok (a : A)
  | Raise (e : exn).
Arguments Ok {A} a.
Arguments Raise {A} e.

Global Instance result_ret : MRet result := fun _ a => Ok a.
Global Instance result_bind : MBind result := fun _ _ f r =>
  match r with Ok a => f a | Raise e => Raise e end.
Global Instance result_fmap : FMap result := fun _ _ f r =>
  match r with Ok a => Ok (f a) | Raise e => Raise e end.

(** [try: r  except Exception: d] *)
Definition try_except {A} (r : result A) (d : A) : A :=
  match r with Ok a => a | Raise _ => d end.

(** JSON values as [json.load] and [request.get_json] build them.  Numbers
    are integers: JSON floats are outside the model.  A dictionary is its
    list of items, one per key; [dict_get] reads the first item of a key. *)
Inductive json : Type :=
  | JNull
  | JBool (b : bool)
  | JNum (n : Z)
  | JStr (s : string)
  | JList (l : list json)
  | JDict (kvs : list (string * json)).

Fixpoint dict_get (k : string) (kvs : list (string * json)) : option json :=
  match kvs with
  | [] => None
  | (k', v) :: rest => if String.eqb k k' then Some v else dict_get k rest
  end.

(** [bool(v)] *)
Definition truthy (v : json) : bool :=
  match v with
  | JNull => false
  | JBool b => b
  | JNum n => negb (Z.eqb n 0)
  | JStr s => negb (String.eqb s "")
  | JList l => match l with [] => false | _ => true end
  | JDict kvs => match kvs with [] => false | _ => true end
  end.

(** [v == s] for a Python string [s]: only a string equals a string. *)
Definition eq_str (s : string) (v : json) : bool :=
  match v with JStr s' => String.eqb s' s | _ => false end.

(** [o.get(k, d)]: only dictionaries have the method. *)
Definition py_get (o : json) (k : string) (d : json) : result json :=
  match o with
  | JDict kvs => Ok (default d (dict_get k kvs))
  | _ => Raise AttributeError
  end.

(** [o[k]] for a string key. *)
Definition py_getitem (o : json) (k : string) : result json :=
  match o with
  | JDict kvs => match dict_get k kvs with Some v => Ok v | None => Raise KeyError end
  | _ => Raise TypeError
  end.

Fixpoint str_contains (needle s : string) : bool :=
  String.prefix needle s ||
  match s with
  | EmptyString => false
  | String _ s' => str_contains needle s'
  end.

(** [k in o] for a string [k]. *)
Definition py_contains (k : string) (o : json) : result bool :=
  match o with
  | JDict kvs => Ok (bool_decide (is_Some (dict_get k kvs)))
  | JList l => Ok (existsb (eq_str k) l)
  | JStr s => Ok (str_contains k s)
  | _ => Raise TypeError
  end.

Fixpoint chars (s : string) : list string :=
  match s with
  | EmptyString => []
  | String c s' => String c EmptyString :: chars s'
  end.

(** [for x in o]: the items the loop visits. *)
Definition py_iter (o : json) : result (list json) :=
  match o with
  | JList l => Ok l
  | JDict kvs => Ok (map (fun kv => JStr (fst kv)) kvs)
  | JStr s => Ok (map JStr (chars s))
  | _ => Raise TypeError
  end.

Definition hashable (v : json) : bool :=
  match v with JList _ | JDict _ => false | _ => true end.

(** [set(o)], kept as the list of its members: the code only tests
    membership of strings in it. *)
Definition py_set (o : json) : result (list json) :=
  items ← py_iter o;
  if forallb hashable items then Ok items else Raise TypeError.

(** [s in st] for a string [s] and a set [st] built by [py_set]. *)
Definition str_in (s : string) (st : list json) : bool := existsb (eq_str s) st.

(** ** Strings *)

(** [c.isspace()] on the code points 0..255. *)
Definition isspace (c : ascii) : bool :=
  let n := nat_of_ascii c in
  (((9 <=? n) && (n <=? 13)) || ((28 <=? n) && (n <=? 32))
   || (n =? 133) || (n =? 160))%nat.

Fixpoint lstrip (s : string) : string :=
  match s with
  | EmptyString => EmptyString
  | String c s' => if isspace c then lstrip s' else s
  end.

Fixpoint rstrip (s : string) : string :=
  match s with
  | EmptyString => EmptyString
  | String c s' =>
      match rstrip s' with
      | EmptyString => if isspace c then EmptyString else String c EmptyString
      | r => String c r
      end
  end.

(** [s.strip()] *)
Definition strip (s : string) : string := rstrip (lstrip s).

(** [v.strip()]: only strings have the method. *)
Definition py_strip (v : json) : result string :=
  match v with JStr s => Ok (strip s) | _ => Raise AttributeError end.

(** [sorted(l)] on strings: ascending in the order of [String.le], the
    code-point lexicographic order.  Python's sort is stable and the order
    is total, so the result does not depend on the sorting algorithm. *)
Definition sorted (l : list string) : list string := merge_sort String.le l.

(** ** The libraries the code calls *)

(** [urllib.parse.ParseResult] *)
Record ParseResult : Type := mkParseResult {
  scheme : string;
  netloc : string;
  path : string;
  params : string;
  query : string;
  fragment : string
}.

(** [parsed._replace(query='')] and [parsed._replace(fragment='')] *)
Definition replace_query (p : ParseResult) (q : string) : ParseResult :=
  mkParseResult (scheme p) (netloc p) (path p) (params p) q (fragment p).
Definition replace_fragment (p : ParseResult) (f : string) : ParseResult :=
  mkParseResult (scheme p) (netloc p) (path p) (params p) (query p) f.

(** The three functions of [urllib.parse] the code uses.  Each may raise. *)
Class UrlLib : Type := {
  urljoin : string -> string -> result string;
  urlparse : string -> result ParseResult;
  geturl : ParseResult -> result string
}.

(** [BeautifulSoup(html, 'html.parser').find_all('a', href=True)], as the
    list of the [href] values of the anchors found, in document order. *)
Class HtmlParser : Type := {
  find_all_a_href : string -> list string
}.

(** [list(set(links))]: the members without repetition, in an order the
    language leaves open (it changes with the hash seed of the process). *)
Class SetOrder : Type := {
  list_set : list string -> list string;
  list_set_NoDup : forall l, NoDup (list_set l);
  list_set_elem_of : forall l x, x ∈ list_set l <-> x ∈ l
}.

(** The response object of [requests], as far as lines 158 to 163 and
    [raise_for_status] read it: the status code and the reason phrase of
    the last response received, the URL that response came from, and its
    body as text.  The library follows redirects ([allow_redirects] is true
    by default), so [resp_url] need not be the URL that was asked for. *)
Record http_response : Type := mkHttpResponse {
  resp_status : nat;
  resp_reason : string;
  resp_url : string;
  resp_text : string
}.

(** What the call [requests.get(url, ...)] of line 158 gives: a response,
    whatever its status; a [RequestException] raised by the library
    (connection error, timeout, too many redirects, ...), [cause] being its
    [str]; or another exception. *)
Inductive fetch_result : Type :=
  | Responded (page : http_response)
  | RequestException (cause : string)
  | FetchRaised (e : exn).

(** The network as [requests] shows it: what a call gives, and the URLs the
    call asks the network for, in order (the URL of the call, then the
    target of each redirect it follows; none when the library refuses the
    URL before sending anything). *)
Class Network : Type := {
  requests_get : string -> fetch_result;
  urls_requested : string -> list string
}.

(** [str(n)] for a natural number. *)
Definition str_nat (n : nat) : string :=
  DecimalString.NilEmpty.string_of_uint (Nat.to_uint n).

(** [response.raise_for_status()] of [requests]: the message of the
    [HTTPError] it raises, which it does for the status codes from 400 to
    599 and for no other; [None] when it returns. *)
Definition raise_for_status (page : http_response) : option string :=
  let status_code := resp_status page in
  if ((400 <=? status_code) && (status_code <? 500))%nat then
    Some (str_nat status_code +:+ " Client Error: " +:+ resp_reason page
          +:+ " for url: " +:+ resp_url page)
  else if ((500 <=? status_code) && (status_code <? 600))%nat then
    Some (str_nat status_code +:+ " Server Error: " +:+ resp_reason page
          +:+ " for url: " +:+ resp_url page)
  else None.

(** ** URL normaliser and link extractor *)

(** The dictionary of lines 78 to 82. *)
Definition default_options : json :=
  JDict [("internal_only", JBool true);
         ("remove_query", JBool true);
         ("remove_anchors", JBool true)].

Section Extractor.
Context {urllib : UrlLib} {soup : HtmlParser} {order : SetOrder}.

(** [normalize_url(url, base_url, remove_query, remove_anchors)]: every
    exception of the body is caught and turned into [None]. *)
Definition normalize_url (url base_url : string)
    (remove_query remove_anchors : json) : option string :=
  try_except
    (full_url ← urljoin base_url url;
     parsed ← urlparse full_url;
     let parsed := if truthy remove_query then replace_query parsed "" else parsed in
     let parsed := if truthy remove_anchors then replace_fragment parsed "" else parsed in
     Some <$> geturl parsed)
    None.

(** The loop over the anchors (lines 88 to 101): the list [links] it
    builds, or the exception that ends it. *)
Fixpoint collect_links (hrefs : list string) (base_url : string)
    (options : json) : result (list string) :=
  match hrefs with
  | [] => Ok []
  | href :: rest =>
      if String.eqb href "" || String.eqb href "#" then
        collect_links rest base_url options
      else
        remove_query ← py_get options "remove_query" (JBool true);
        remove_anchors ← py_get options "remove_anchors" (JBool true);
        match normalize_url href base_url remove_query remove_anchors with
        | Some normalized_url =>
            if negb (String.eqb normalized_url "") then
              cons normalized_url <$> collect_links rest base_url options
            else collect_links rest base_url options
        | None => collect_links rest base_url options
        end
  end.

(** The test of the filter loop (lines 111 to 115): a link whose parse
    raises is skipped. *)
Definition same_domain (base_domain link : string) : bool :=
  try_except
    (parsed ← urlparse link; Ok (String.eqb (netloc parsed) base_domain))
    false.

(** Lines 77 to 82: [options] when it is not [None] (here [JNull]). *)
Definition options_or_default (options : json) : json :=
  match options with JNull => default_options | _ => options end.

(** [extract_links_from_html(html, base_url, options)] *)
Definition extract_links_from_html (html base_url : string)
    (options : json) : result (list string) :=
  let options := options_or_default options in
  links ← collect_links (find_all_a_href html) base_url options;
  let unique_links := list_set links in
  internal_only ← py_get options "internal_only" (JBool true);
  unique_links ←
    (if truthy internal_only then
       base ← urlparse base_url;
       Ok (filter (fun link => same_domain (netloc base) link = true) unique_links)
     else Ok unique_links);
  Ok (sorted unique_links).

End Extractor.

(** ** The history store and the outside world *)

(** What [HISTORY_FILE] holds when it exists: a JSON document, or bytes on
    which [json.load] raises. *)
Inductive file_content : Type :=
  | Unreadable
  | Stored (j : json).

(** The state the handlers act on: whether [DATA_DIR] exists, the history
    file ([None] when absent), and the URLs requested from the network so
    far (most recent first), those of followed redirects included.  The
    file system is taken to be reliable: creating the directory and writing
    the file succeed. *)
Record world : Type := mkWorld {
  data_dir : bool;
  history_file : option file_content;
  requests_sent : list string
}.

(** Computations that read and write the world and may raise. *)
Definition M (A : Type) : Type := world -> result A * world.

Definition ret {A} (a : A) : M A := fun w => (Ok a, w).
Definition bind {A B} (m : M A) (f : A -> M B) : M B := fun w =>
  match m w with
  | (Ok a, w') => f a w'
  | (Raise e, w') => (Raise e, w')
  end.

Notation "x <- m ;; k" := (bind m (fun x => k))
  (at level 100, m at next level, right associativity).
Definition lift {A} (r : result A) : M A := fun w => (r, w).

(** [ensure_data_dir()] *)
Definition ensure_data_dir : M unit := fun w =>
  (Ok tt, mkWorld true (history_file w) (requests_sent w)).

(** [load_history()]: the document of the file, or the empty list when the
    file is absent or cannot be read. *)
Definition load_history : M json :=
  _ <- ensure_data_dir ;;
  fun w =>
    match history_file w with
    | Some (Stored j) => (Ok j, w)
    | Some Unreadable | None => (Ok (JList []), w)
    end.

(** [json.dump(history, f, ...)] on the file opened for writing. *)
Definition write_history (history : json) : M unit := fun w =>
  (Ok tt, mkWorld (data_dir w) (Some (Stored history)) (requests_sent w)).

(** [history.insert(0, data)]: only lists have the method. *)
Definition py_insert0 (history data : json) : result (list json) :=
  match history with
  | JList l => Ok (data :: l)
  | _ => Raise AttributeError
  end.

(** [save_history(data)]: an exception of the body is caught and reported
    as [False]. *)
Definition save_history (data : json) : M bool :=
  _ <- ensure_data_dir ;;
  history <- load_history ;;
  match py_insert0 history data with
  | Ok history =>
      let history := if (50 <? length history)%nat then take 50 history else history in
      _ <- write_history (JList history) ;;
      ret true
  | Raise _ => ret false
  end.

(** The loop of [get_previous_data] over the items of the history. *)
Fixpoint find_previous (url : string) (items : list json) : result (option json) :=
  match items with
  | [] => Ok None
  | item :: rest =>
      base_url ← py_get item "base_url" JNull;
      if eq_str url base_url then Ok (Some item) else find_previous url rest
  end.

(** [get_previous_data(url)] *)
Definition get_previous_data (url : string) : M (option json) :=
  history <- load_history ;;
  items <- lift (py_iter history) ;;
  lift (find_previous url items).

(** The test of that loop on one item, with the exception read as no. *)
Definition record_for (url : string) (item : json) : bool :=
  try_except (eq_str url <$> py_get item "base_url" JNull) false.

(** What [load_history()] returns in a world. *)
Definition history_of (w : world) : json :=
  match history_file w with
  | Some (Stored j) => j
  | Some Unreadable | None => JList []
  end.

Definition is_list (v : json) : bool :=
  match v with JList _ => true | _ => false end.

Definition is_dict (v : json) : bool :=
  match v with JDict _ => true | _ => false end.

(** The world after [save_history] has been called on each record of a
    list, the first of the list first. *)
Definition appends (records : list json) (w : world) : world :=
  foldl (fun w record => snd (save_history record w)) w records.

(** ** The request handlers *)

(** A response: [jsonify(result)] with status 200, [{'error': message}]
    with status 400, or status 500 for an exception [e] caught by the
    outermost handler (its message is a fixed prefix followed by
    [str(e)]). *)
Inductive response : Type :=
  | Success (result : json)
  | ClientError (message : string)
  | ServerError (e : exn).

Definition status_code (r : response) : nat :=
  match r with
  | Success _ => 200
  | ClientError _ => 400
  | ServerError _ => 500
  end.

Definition msg_no_url : string := "URLが指定されていません".
Definition msg_invalid_url : string := "有効なURLを指定してください".
Definition msg_bad_format : string := "無効なURL形式です".
Definition msg_fetch_failed : string := "Webページの取得に失敗しました: ".

(** The dictionary [result] of lines 175 to 183. *)
Definition make_result (target_url : string) (all_links new_links : list string)
    (timestamp : string) (options : json) : json :=
  JDict [("base_url", JStr target_url);
         ("all_links", JList (JStr <$> all_links));
         ("new_links", JList (JStr <$> new_links));
         ("timestamp", JStr timestamp);
         ("total_count", JNum (Z.of_nat (length all_links)));
         ("new_count", JNum (Z.of_nat (length new_links)));
         ("options", options)].

(** Lines 166 to 172: the links not seen in the previous record. *)
Definition diff_links (previous_data : option json) (all_links : list string)
    : result (list string) :=
  match previous_data with
  | Some previous =>
      if truthy previous then
        stored ← py_get previous "all_links" (JList []);
        previous_links ← py_set stored;
        Ok (filter (fun link => str_in link previous_links = false) all_links)
      else Ok all_links
  | None => Ok all_links
  end.

Section Handlers.
Context {urllib : UrlLib} {soup : HtmlParser} {order : SetOrder} {net : Network}.

(** [requests.get(target_url, headers=headers, timeout=30)]: every URL the
    call asks the network for is recorded in the world. *)
Definition http_get (url : string) : M fetch_result := fun w =>
  (Ok (requests_get url),
   mkWorld (data_dir w) (history_file w)
     (rev (urls_requested url) ++ requests_sent w)).

(** Lines 163 to 188: extract, diff against the previous record, save,
    respond.  [now] is [datetime.now().isoformat()]. *)
Definition extract_and_save (text target_url : string) (options : json)
    (now : string) : M response :=
  all_links <- lift (extract_links_from_html text target_url options) ;;
  previous_data <- get_previous_data target_url ;;
  new_links <- lift (diff_links previous_data all_links) ;;
  let result := make_result target_url all_links new_links now options in
  _ <- save_history result ;;
  ret (Success result).

(** Lines 152 to 188: fetch the page, then the above.  The [try] of lines
    157 to 161 catches the [RequestException] of [requests.get] and the
    [HTTPError], a [RequestException] too, of [raise_for_status]; on a
    response that [raise_for_status] lets through, line 163 goes on with
    [response.text]. *)
Definition fetch_and_extract (target_url : string) (options : json)
    (now : string) : M response :=
  outcome <- http_get target_url ;;
  match outcome with
  | RequestException cause => ret (ClientError (msg_fetch_failed +:+ cause))
  | FetchRaised e => lift (Raise e)
  | Responded page =>
      match raise_for_status page with
      | Some cause => ret (ClientError (msg_fetch_failed +:+ cause))
      | None => extract_and_save (resp_text page) target_url options now
      end
  end.

(** The body of [extract_links] inside its outer [try].  [request_json]
    is what [request.get_json()] gives. *)
Definition extract_links_body (request_json : result json) (now : string)
    : M response :=
  data <- lift request_json ;;
  no_url <- lift (if negb (truthy data) then Ok true
                  else negb <$> py_contains "url" data) ;;
  if no_url : bool then ret (ClientError msg_no_url) else
  url <- lift (py_getitem data "url") ;;
  target_url <- lift (py_strip url) ;;
  options <- lift (py_get data "options" (JDict [])) ;;
  match urlparse target_url with
  | Raise _ => ret (ClientError msg_bad_format)
  | Ok parsed_url =>
      if String.eqb (scheme parsed_url) "" || String.eqb (netloc parsed_url) ""
      then ret (ClientError msg_invalid_url)
      else fetch_and_extract target_url options now
  end.

(** [extract_links()], the handler of [POST /api/extract]. *)
Definition extract_links (request_json : result json) (now : string)
    (w : world) : response * world :=
  match extract_links_body request_json now w with
  | (Ok r, w') => (r, w')
  | (Raise e, w') => (ServerError e, w')
  end.

End Handlers.

(** [get_history()], the handler of [GET /api/history]. *)
Definition get_history (w : world) : response * world :=
  match load_history w with
  | (Ok history, w') => (Success history, w')
  | (Raise e, w') => (ServerError e, w')
  end.

(** [clear_history()], the handler of [DELETE /api/history]. *)
Definition clear_history (w : world) : response * world :=
  (Success (JDict [("success", JBool true); ("message", JStr "履歴をクリアしました")]),
   mkWorld true None (requests_sent w)).

(** ** A model of [urllib.parse]

    The functions [urlsplit], [urlparse], [urlunsplit], [urlunparse] and
    [urljoin] of CPython 3.10.0 ([Lib/urllib/parse.py]), on text strings with
    [allow_fragments=True].  The result cache is left out: it does not
    change what the functions return.  [_checknetloc] is left out as well:
    it raises only when the NFKC form of the network location holds one of
    [/?#@:], which no character of the code points 0..255 produces. *)
Module Urllib.

Definition uses_relative : list string :=
  [""; "ftp"; "http"; "gopher"; "nntp"; "imap"; "wais"; "file"; "https";
   "shttp"; "mms"; "prospero"; "rtsp"; "rtspu"; "sftp"; "svn"; "svn+ssh";
   "ws"; "wss"].

Definition uses_netloc : list string :=
  [""; "ftp"; "http"; "gopher"; "nntp"; "telnet"; "imap"; "wais"; "file";
   "mms"; "https"; "shttp"; "snews"; "prospero"; "rtsp"; "rtspu"; "rsync";
   "svn"; "svn+ssh"; "sftp"; "nfs"; "git"; "git+ssh"; "ws"; "wss"].

Definition uses_params : list string :=
  [""; "ftp"; "hdl"; "prospero"; "http"; "imap"; "https"; "shttp"; "rtsp";
   "rtspu"; "sip"; "sips"; "mms"; "sftp"; "tel"].

Definition scheme_chars : string :=
  "abcdefghijklmnopqrstuvwxyzABCDEFGHIJKLMNOPQRSTUVWXYZ0123456789+-.".

Definition mem (s : string) (l : list string) : bool :=
  existsb (String.eqb s) l.

Fixpoint has_char (c : ascii) (s : string) : bool :=
  match s with
  | EmptyString => false
  | String c' s' => Ascii.eqb c c' || has_char c s'
  end.

Fixpoint all_chars (p : ascii -> bool) (s : string) : bool :=
  match s with
  | EmptyString => true
  | String c s' => p c && all_chars p s'
  end.

Fixpoint filter_chars (p : ascii -> bool) (s : string) : string :=
  match s with
  | EmptyString => EmptyString
  | String c s' => if p c then String c (filter_chars p s') else filter_chars p s'
  end.

(** [s.partition(c)] when [c] occurs in [s]: the text before its first
    occurrence and the text after it. *)
Fixpoint split_once (c : ascii) (s : string) : option (string * string) :=
  match s with
  | EmptyString => None
  | String c' s' =>
      if Ascii.eqb c c' then Some (EmptyString, s')
      else match split_once c s' with
           | Some (before, after) => Some (String c' before, after)
           | None => None
           end
  end.

(** [s.split(c)] *)
Fixpoint split (c : ascii) (s : string) : list string :=
  match s with
  | EmptyString => [EmptyString]
  | String c' s' =>
      if Ascii.eqb c c' then EmptyString :: split c s'
      else match split c s' with
           | first :: others => String c' first :: others
           | [] => [String c' EmptyString]
           end
  end.

(** [sep.join(l)] *)
Fixpoint join (sep : string) (l : list string) : string :=
  match l with
  | [] => EmptyString
  | [s] => s
  | s :: rest => s +:+ sep +:+ join sep rest
  end.

Definition lower_char (c : ascii) : ascii :=
  let n := nat_of_ascii c in
  if (65 <=? n) && (n <=? 90) then ascii_of_nat (n + 32) else c.

(** [s.lower()], used on schemes only, whose characters are ASCII. *)
Fixpoint lower (s : string) : string :=
  match s with
  | EmptyString => EmptyString
  | String c s' => String (lower_char c) (lower s')
  end.

Definition tab : ascii := ascii_of_nat 9.
Definition newline : ascii := ascii_of_nat 10.
Definition carriage_return : ascii := ascii_of_nat 13.

(** The loop over [_UNSAFE_URL_BYTES_TO_REMOVE]. *)
Definition remove_unsafe (s : string) : string :=
  filter_chars
    (fun c => negb (Ascii.eqb c tab || Ascii.eqb c carriage_return || Ascii.eqb c newline))
    s.

Definition is_delim (c : ascii) : bool :=
  Ascii.eqb c "/" || Ascii.eqb c "?" || Ascii.eqb c "#".

(** [_splitnetloc(url, 2)] on the text after the two slashes. *)
Fixpoint splitnetloc (s : string) : string * string :=
  match s with
  | EmptyString => (EmptyString, EmptyString)
  | String c s' =>
      if is_delim c then (EmptyString, s)
      else let '(domain, rest) := splitnetloc s' in (String c domain, rest)
  end.

Record SplitResult : Type := mkSplitResult {
  s_scheme : string;
  s_netloc : string;
  s_path : string;
  s_query : string;
  s_fragment : string
}.

(** [urlsplit(url, scheme)] *)
Definition urlsplit (url scheme : string) : result SplitResult :=
  let url := remove_unsafe url in
  let scheme := remove_unsafe scheme in
  let '(scheme, url) :=
    match split_once ":" url with
    | Some (before, after) =>
        if negb (String.eqb before "")
           && all_chars (fun c => has_char c scheme_chars) before
        then (lower before, after)
        else (scheme, url)
    | None => (scheme, url)
    end in
  '(netloc, url) ←
    (if String.prefix "//" url then
       let '(netloc, rest) := splitnetloc (String.substring 2 (String.length url - 2) url) in
       if (has_char "[" netloc && negb (has_char "]" netloc))
          || (has_char "]" netloc && negb (has_char "[" netloc))
       then Raise ValueError
       else Ok (netloc, rest)
     else Ok (EmptyString, url));
  let '(url, fragment) :=
    match split_once "#" url with
    | Some (before, after) => (before, after)
    | None => (url, EmptyString)
    end in
  let '(url, query) :=
    match split_once "?" url with
    | Some (before, after) => (before, after)
    | None => (url, EmptyString)
    end in
  Ok (mkSplitResult scheme netloc url query fragment).

(** The index of the last [/] of [s], when there is one. *)
Fixpoint rfind_slash (s : string) : option nat :=
  match s with
  | EmptyString => None
  | String c s' =>
      match rfind_slash s' with
      | Some i => Some (S i)
      | None => if Ascii.eqb c "/" then Some 0 else None
      end
  end.

(** [_splitparams(url)] *)
Definition splitparams (url : string) : string * string :=
  let from := default 0 (rfind_slash url) in
  let head := String.substring 0 from url in
  let tail := String.substring from (String.length url - from) url in
  match split_once ";" tail with
  | Some (before, after) => (head +:+ before, after)
  | None =>
      match rfind_slash url with
      | Some _ => (url, EmptyString)
      | None =>
          (String.substring 0 (String.length url - 1) url, url)
      end
  end.

(** [urlparse(url, scheme)] *)
Definition urlparse (url scheme : string) : result ParseResult :=
  sp ← urlsplit url scheme;
  let '(url, params) :=
    if mem (s_scheme sp) uses_params && has_char ";" (s_path sp)
    then splitparams (s_path sp)
    else (s_path sp, EmptyString) in
  Ok (mkParseResult (s_scheme sp) (s_netloc sp) url params (s_query sp) (s_fragment sp)).

(** [urlunsplit((scheme, netloc, url, query, fragment))] *)
Definition urlunsplit (scheme netloc url query fragment : string) : string :=
  let url :=
    if negb (String.eqb netloc "")
       || (negb (String.eqb scheme "") && mem scheme uses_netloc
           && negb (String.prefix "//" url))
    then
      let url := if negb (String.eqb url "") && negb (String.prefix "/" url)
                 then "/" +:+ url else url in
      "//" +:+ netloc +:+ url
    else url in
  let url := if negb (String.eqb scheme "") then scheme +:+ ":" +:+ url else url in
  let url := if negb (String.eqb query "") then url +:+ "?" +:+ query else url in
  let url := if negb (String.eqb fragment "") then url +:+ "#" +:+ fragment else url in
  url.

(** [urlunparse(p)], which is also [p.geturl()] *)
Definition urlunparse (p : ParseResult) : string :=
  let url := if negb (String.eqb (params p) "")
             then path p +:+ ";" +:+ params p else path p in
  urlunsplit (scheme p) (netloc p) url (query p) (fragment p).

(** The loop of [urljoin] over the segments: [..] pops the last resolved
    segment when there is one, [.] is skipped. *)
Fixpoint resolve (segments resolved_path : list string) : list string :=
  match segments with
  | [] => resolved_path
  | seg :: rest =>
      if String.eqb seg ".." then resolve rest (removelast resolved_path)
      else if String.eqb seg "." then resolve rest resolved_path
      else resolve rest (resolved_path ++ [seg])
  end.

(** [segments[1:-1] = filter(None, segments[1:-1])] *)
Definition filter_inner (segments : list string) : list string :=
  match segments with
  | [] => []
  | first :: rest =>
      match rest with
      | [] => [first]
      | _ =>
          first :: filter (fun seg => seg <> EmptyString) (removelast rest)
                ++ [List.last rest EmptyString]
      end
  end.

(** [urljoin(base, url)] *)
Definition urljoin (base url : string) : result string :=
  if String.eqb base "" then Ok url else
  if String.eqb url "" then Ok base else
  b ← urlparse base "";
  u ← urlparse url (scheme b);
  if negb (String.eqb (scheme u) (scheme b)) || negb (mem (scheme u) uses_relative)
  then Ok url else
  let in_netloc := mem (scheme u) uses_netloc in
  if in_netloc && negb (String.eqb (netloc u) "") then Ok (urlunparse u) else
  let netloc := if in_netloc then netloc b else netloc u in
  if String.eqb (path u) "" && String.eqb (params u) "" then
    let query := if String.eqb (query u) "" then query b else query u in
    Ok (urlunparse (mkParseResult (scheme u) netloc (path b) (params b) query (fragment u)))
  else
    let base_parts := split "/" (path b) in
    let base_parts :=
      if negb (String.eqb (List.last base_parts EmptyString) "")
      then removelast base_parts else base_parts in
    let segments :=
      if String.prefix "/" (path u) then split "/" (path u)
      else filter_inner (base_parts ++ split "/" (path u)) in
    let resolved_path := resolve segments [] in
    let resolved_path :=
      if String.eqb (List.last segments EmptyString) "."
         || String.eqb (List.last segments EmptyString) ".."
      then resolved_path ++ [EmptyString] else resolved_path in
    let joined := join "/" resolved_path in
    Ok (urlunparse (mkParseResult (scheme u) netloc
          (if String.eqb joined "" then "/" else joined)
          (params u) (query u) (fragment u))).

End Urllib.

(** [urllib.parse] as the code imports it. *)
Definition cpython_urllib : UrlLib := {|
  urljoin := Urllib.urljoin;
  urlparse := fun url => Urllib.urlparse url "";
  geturl := fun p => Ok (Urllib.urlunparse p)
|}.

(** ** Instances of the other libraries, for the scenarios *)

(** A scanner for anchors written [<a href='...'>] (or with double
    quotes), with the attribute directly after the tag name.  On a document
    whose anchors all have this shape it gives the [href] values that
    [html.parser] gives; it is used to run the scenarios, and no general
    theorem depends on it. *)
Module Anchors.

Inductive mode : Type :=
  | Outside
  | Skip (n : nat)
  | Opening
  | Inside (quote : ascii) (value : string).

Definition double_quote : ascii := ascii_of_nat 34.
Definition single_quote : ascii := ascii_of_nat 39.

Fixpoint scan (m : mode) (s : string) : list string :=
  match s with
  | EmptyString => []
  | String c s' =>
      match m with
      | Outside =>
          if String.prefix "<a href=" s then scan (Skip 6) s' else scan Outside s'
      | Skip (S n) => scan (Skip n) s'
      | Skip 0 => scan Opening s'
      | Opening =>
          if Ascii.eqb c double_quote || Ascii.eqb c single_quote
          then scan (Inside c EmptyString) s' else scan Outside s'
      | Inside q value =>
          if Ascii.eqb c q then value :: scan Outside s'
          else scan (Inside q (value +:+ String c EmptyString)) s'
      end
  end.

End Anchors.

Definition anchor_scanner : HtmlParser := {|
  find_all_a_href := Anchors.scan Anchors.Outside
|}.

(** Two ways a set can list its members: in the order of the list it was
    built from (each member at its last occurrence), and in the order of a
    hash of the members (here, stdpp's [gset]). *)
Definition list_order : SetOrder := {|
  list_set := remove_dups;
  list_set_NoDup := NoDup_remove_dups;
  list_set_elem_of := fun l x => elem_of_remove_dups l x
|}.

Definition gset_elements (l : list string) : list string :=
  elements (list_to_set (C:=gset string) l).

Definition hash_order : SetOrder := {|
  list_set := gset_elements;
  list_set_NoDup := fun l => NoDup_elements (list_to_set (C:=gset string) l);
  list_set_elem_of := fun l x =>
    iff_trans (elem_of_elements (list_to_set (C:=gset string) l) x)
              (elem_of_list_to_set x l)
|}.


(** A network on which one page exists, every other URL being answered
    with status 404, and a network that is down. *)
Definition one_page (url text : string) : Network := {|
  requests_get := fun u =>
    if String.eqb u url then Responded (mkHttpResponse 200 "OK" u text)
    else Responded (mkHttpResponse 404 "Not Found" u "");
  urls_requested := fun u => [u]
|}.

Definition unreachable (cause : string) : Network := {|
  requests_get := fun _ => RequestException cause;
  urls_requested := fun u => [u]
|}.

(** A network on which the site has moved: the request is redirected to
    another host, which answers with a page. *)
Definition moved (url new_url text : string) : Network := {|
  requests_get := fun u =>
    if String.eqb u url then Responded (mkHttpResponse 200 "OK" new_url text)
    else Responded (mkHttpResponse 404 "Not Found" u "");
  urls_requested := fun u => if String.eqb u url then [u; new_url] else [u]
|}.

Definition empty_world : world := mkWorld false None [].

(** A world with a history of one entry and one request sent before. *)
Definition used_world : world :=
  mkWorld true (Some (Stored (JList [JNum 1]))) ["https://site.com"].

Definition scenario_a_html : string :=
  "<html><body><a href='/a'>a</a><a href='#'>top</a><a href=''>none</a>" +:+
  "<a href='https://other.com/x'>x</a><a href='/a?x=1#frag'>a again</a></body></html>".

(** ** Definitions used in the statements *)

(** The world after [ensure_data_dir()]. *)
Definition with_data_dir (w : world) : world :=
  mkWorld true (history_file w) (requests_sent w).

(** The options of a request: [data.get('options', {})]. *)
Definition request_options (kvs : list (string * json)) : json :=
  default (JDict []) (dict_get "options" kvs).

(** [link] is the normalised, non-empty URL of an anchor of the page whose
    [href] is neither empty nor [#]. *)
Definition anchor_link {urllib : UrlLib} {soup : HtmlParser}
    (html base_url : string) (options : json) (link : string) : Prop :=
  exists href remove_query remove_anchors,
    href ∈ find_all_a_href html /\ href <> "" /\ href <> "#" /\
    py_get options "remove_query" (JBool true) = Ok remove_query /\
    py_get options "remove_anchors" (JBool true) = Ok remove_anchors /\
    normalize_url href base_url remove_query remove_anchors = Some link /\
    link <> "".

(** The world after the call [requests.get(url, ...)]: the URLs the call
    asked the network for are added to those requested before. *)
Definition sent {net : Network} (url : string) (w : world) : world :=
  mkWorld (data_dir w) (history_file w)
    (rev (urls_requested url) ++ requests_sent w).

(** The fetch of lines 157 to 161 gives the page [text]: [requests.get]
    returns a response that [raise_for_status] lets through, and [text] is
    the body of that response. *)
Definition fetched {net : Network} (url text : string) : Prop :=
  exists page,
    requests_get url = Responded page /\
    raise_for_status page = None /\
    resp_text page = text.


Definition option_keys : list string :=
  ["internal_only"; "remove_query"; "remove_anchors"].

(** An option dictionary in which each of the three options is either
    absent or [True]. *)
Definition leaves_defaults (options : list (string * json)) : bool :=
  forallb
    (fun key =>
       match dict_get key options with
       | None | Some (JBool true) => true
       | Some _ => false
       end)
    option_keys.

(** ** Data of the scenarios *)

(** The hrefs of scenario A. *)
Definition scenario_a_hrefs : list string :=
  ["/a"; "#"; ""; "https://other.com/x"; "/a?x=1#frag"].

(** Fifty-one records, numbered in the order they are saved. *)
Definition fifty_one_records : list json :=
  (fun n => JDict [("base_url", JStr "https://site.com"); ("total_count", JNum (Z.of_nat n))])
    <$> seq 1 51.

Definition site : string := "https://site.com".

(** Options that ask for the links of every host. *)
Definition all_hosts : json := JDict [("internal_only", JBool false)].
Definition site_request : json := JDict [("url", JStr site)].
Definition site_request_with_options : json :=
  JDict [("url", JStr site); ("options", default_options)].

(** The handler on a network that serves the page of scenario A. *)
Definition visit (request : json) (now : string) (w : world) : response * world :=
  extract_links (urllib:=cpython_urllib) (soup:=anchor_scanner) (order:=hash_order)
    (net:=one_page site scenario_a_html) (Ok request) now w.

Definition after_first_visit : world := snd (visit site_request "t0" empty_world).




(** The handler on a network that redirects the site to another host. *)
Definition visit_moved (request : json) (now : string) (w : world)
    : response * world :=
  extract_links (urllib:=cpython_urllib) (soup:=anchor_scanner) (order:=hash_order)
    (net:=moved site "https://www.site.com/" scenario_a_html) (Ok request) now w.

(** The record of a first visit of the site. *)
Definition first_visit_record (now : string) : json :=
  make_result site ["https://site.com/a"] ["https://site.com/a"] now (JDict []).

(** A world whose history has a record for the site without [all_links]. *)
Definition damaged_world : world :=
  mkWorld true (Some (Stored (JList [JDict [("base_url", JStr site)]]))) [].

(** The record of a second visit: nothing is new. *)
Definition second_visit_record : json :=
  make_result site ["https://site.com/a"] [] "t1" (JDict []).

(** ** The API as a whole *)

(** One call of the API: the three handlers that touch the history.  An
    extraction carries the network as it is when the request arrives. *)
Inductive request : Type :=
  | Extract (net : Network) (request_json : result json) (now : string)
  | GetHistory
  | ClearHistory.

Section Api.
Context {urllib : UrlLib} {soup : HtmlParser} {order : SetOrder}.

Definition handle (req : request) (w : world) : response * world :=
  match req with
  | Extract net request_json now => extract_links (net:=net) request_json now w
  | GetHistory => get_history w
  | ClearHistory => clear_history w
  end.

(** The world after a sequence of calls, the first of the list first. *)
Definition run (reqs : list request) (w : world) : world :=
  foldl (fun w req => snd (handle req w)) w reqs.

End Api.

(** [v[key]] when [v] is a dictionary that has the key. *)
Definition field (key : string) (v : json) : option json :=
  match v with JDict kvs => dict_get key kvs | _ => None end.

(** A record as the handler writes it, as far as the diff reads it: a
    dictionary with a string under [base_url] and a list of strings under
    [all_links]. *)
Definition is_record (item : json) : Prop :=
  exists url links,
    field "base_url" item = Some (JStr url) /\
    field "all_links" item = Some (JList (JStr <$> links)).

(** A history the handlers can have written: a list of at most 50 records. *)
Definition good_history (w : world) : Prop :=
  exists items,
    history_of w = JList items /\ length items <= 50 /\ Forall is_record items.

(** A request passes validation: it is a dictionary whose [url] is a
    string that, once stripped, parses into a scheme and a network
    location. *)
Definition valid_request {urllib : UrlLib} (data : json) (target_url : string) (options : json) : Prop :=
  exists kvs url parsed_url,
    data = JDict kvs /\ dict_get "url" kvs = Some (JStr url) /\
    target_url = strip url /\ options = request_options kvs /\
    urlparse target_url = Ok parsed_url /\
    scheme parsed_url <> "" /\ netloc parsed_url <> "".

(** ** The entry point (lines 223 to 258) *)

(** [int(s)] on a string: the integer, or [None] for [ValueError]. *)
Class IntParser : Type := {
  py_int : string -> option Z
}.

(** The port the server listens on, and whether the warning of line 234
    was printed.  [environ_port] is [os.environ.get('PORT')], [argv] is
    [sys.argv]. *)
Definition select_port {parser : IntParser} (environ_port : option string)
    (argv : list string) : result (Z * bool) :=
  port ← match environ_port with
         | None => Ok 5000%Z
         | Some text =>
             match py_int text with Some n => Ok n | None => Raise ValueError end
         end;
  match argv with
  | _ :: arg :: _ =>
      match py_int arg with
      | Some n => Ok (n, false)
      | None => Ok (port, true)
      end
  | _ => Ok (port, false)
  end.

(** A parser to run the entry point with: [int] on plain decimal numerals
    with an optional sign and blanks around them.  (Python's [int] accepts
    more, such as underscores between digits.) *)
Module Decimal.

Definition digit (c : ascii) : option Z :=
  let n := nat_of_ascii c in
  if ((48 <=? n) && (n <=? 57))%nat then Some (Z.of_nat (n - 48)) else None.

Fixpoint digits (acc : Z) (s : string) : option Z :=
  match s with
  | EmptyString => Some acc
  | String c s' =>
      match digit c with
      | Some d => digits (10 * acc + d) s'
      | None => None
      end
  end.

Definition unsigned (s : string) : option Z :=
  match s with
  | EmptyString => None
  | _ => digits 0 s
  end.

Definition parse (s : string) : option Z :=
  match strip s with
  | String "-" rest => Z.opp <$> unsigned rest
  | String "+" rest => unsigned rest
  | text => unsigned text
  end.

End Decimal.

Definition decimal_int : IntParser := {| py_int := Decimal.parse |}.

(** ** More data for the scenarios *)

(** A world whose history file holds an empty dictionary, not a list. *)
Definition unlisted_world : world := mkWorld true (Some (Stored (JDict []))) [].

(** A world whose history starts with an item that is not a dictionary. *)
Definition broken_world : world :=
  mkWorld true (Some (Stored (JList [JNum 1; JDict [("base_url", JStr site)]]))) [].

(** The page of scenario A with its anchors in another order, the first
    one twice. *)
Definition shuffled_html : string :=
  "<p><a href='/a?x=1#frag'>1</a><a href='https://other.com/x'>2</a>" +:+
  "<a href=''>3</a><a href='/a'>4</a><a href='#'>5</a><a href='/a'>6</a></p>".

(** The request for the site with blanks around the URL. *)
Definition padded_request : json := JDict [("url", JStr "  https://site.com ")].

(** A request whose options are a list. *)
Definition list_options_request : json :=
  JDict [("url", JStr site); ("options", JList [JStr "internal_only"])].

(** A session: two visits, a look at the history, a clearing, a failed
    visit and a last visit. *)
Definition session : list request :=
  [Extract (one_page site scenario_a_html) (Ok site_request) "t0";
   Extract (one_page site scenario_a_html) (Ok site_request_with_options) "t1";
   GetHistory;
   ClearHistory;
   Extract (unreachable "timeout") (Ok site_request) "t2";
   Extract (one_page site scenario_a_html) (Ok padded_request) "t3"].

(** * Properties *)

(** ** The result monad *)

Lemma bind_Ok {A B} (r : result A) (f : A -> result B) b :
  r ≫= f = Ok b -> exists a, r = Ok a /\ f a = Ok b.
Proof. destruct r as [a|e]; simpl; [eauto | discriminate]. Qed.

Lemma fmap_Ok {A B} (f : A -> B) (r : result A) b :
  f <$> r = Ok b -> exists a, r = Ok a /\ b = f a.
Proof. destruct r as [a|e]; simpl; intros [=]; eauto. Qed.

(** ** Sorting *)

Lemma sorted_Permutation l : sorted l ≡ₚ l.
Proof. apply merge_sort_Permutation. Qed.

Lemma sorted_StronglySorted l : StronglySorted String.le (sorted l).
Proof. apply StronglySorted_merge_sort; apply _. Qed.

Lemma sorted_elem_of l x : x ∈ sorted l <-> x ∈ l.
Proof. by rewrite sorted_Permutation. Qed.

Lemma sorted_NoDup l : NoDup l -> NoDup (sorted l).
Proof. by rewrite sorted_Permutation. Qed.

(** Sorting forgets the order of its input. *)
Lemma sorted_canonical l1 l2 : l1 ≡ₚ l2 -> sorted l1 = sorted l2.
Proof.
  intros Hp. apply (StronglySorted_unique String.le); try apply sorted_StronglySorted.
  by rewrite !sorted_Permutation.
Qed.

(** ** The link extractor *)

Section ExtractorProperties.
Context {urllib : UrlLib} {soup : HtmlParser}.

(** What [extract_links_from_html] returns, in terms of the list the
    anchor loop collects. *)
Lemma extract_links_from_html_Ok {order : SetOrder} html base_url options links :
  extract_links_from_html html base_url options = Ok links ->
  exists collected internal_only,
    collect_links (find_all_a_href html) base_url (options_or_default options)
      = Ok collected /\
    py_get (options_or_default options) "internal_only" (JBool true)
      = Ok internal_only /\
    if truthy internal_only then
      exists base, urlparse base_url = Ok base /\
        links = sorted (filter (fun link => same_domain (netloc base) link = true)
                               (list_set collected))
    else links = sorted (list_set collected).
Proof.
  unfold extract_links_from_html. intros Hrun.
  apply bind_Ok in Hrun as (collected & Hcollect & Hrun).
  apply bind_Ok in Hrun as (internal_only & Hget & Hrun).
  apply bind_Ok in Hrun as (kept & Hkept & [= <-]).
  exists collected, internal_only. repeat split; try done.
  destruct (truthy internal_only).
  - apply bind_Ok in Hkept as (base & Hbase & [= <-]). eauto.
  - by injection Hkept as <-.
Qed.

(** The anchor loop ends without an exception when the options are a
    dictionary. *)
Lemma collect_links_dict hrefs base_url kvs :
  exists collected, collect_links hrefs base_url (JDict kvs) = Ok collected.
Proof.
  induction hrefs as [|href rest [collected IH]]; simpl; [eauto|].
  destruct (_ || _); [eauto|].
  destruct (normalize_url _ _ _ _) as [u|]; [|eauto].
  destruct (negb _); [|eauto]. rewrite IH. simpl. eauto.
Qed.

Lemma options_or_default_dict options :
  options = JNull \/ (exists kvs, options = JDict kvs) ->
  exists kvs, options_or_default options = JDict kvs.
Proof. intros [-> | [kvs ->]]; simpl; eauto. Qed.

(** C1. For every HTML input, base URL and options, the list returned by
    [extract_links_from_html] has no duplicate entry and is sorted
    ascending by string value; and the function does return a list when
    the options are [None] or a dictionary and the base URL parses. *)
Theorem all_links_sorted_without_duplicates {order : SetOrder} html base_url options :
  (forall links,
     extract_links_from_html html base_url options = Ok links ->
     NoDup links /\ StronglySorted String.le links) /\
  (options = JNull \/ (exists kvs, options = JDict kvs) ->
   (exists base, urlparse base_url = Ok base) ->
   exists links, extract_links_from_html html base_url options = Ok links).
Proof.
  split.
  - intros links Hrun.
    apply extract_links_from_html_Ok in Hrun
      as (collected & internal_only & _ & _ & Hlinks).
    destruct (truthy internal_only).
    + destruct Hlinks as (base & _ & ->). split; [|apply sorted_StronglySorted].
      apply sorted_NoDup, NoDup_filter, list_set_NoDup.
    + subst links. split; [|apply sorted_StronglySorted].
      apply sorted_NoDup, list_set_NoDup.
  - intros Hopt [base Hbase].
    apply options_or_default_dict in Hopt as [kvs Hopt].
    unfold extract_links_from_html. rewrite Hopt.
    destruct (collect_links_dict (find_all_a_href html) base_url kvs)
      as [collected ->]. simpl.
    destruct (truthy _); [rewrite Hbase|]; simpl; eauto.
Qed.

(** C9. The extractor is deterministic: whatever order the set gives its
    members in, two runs on the same html, base URL and options return
    the same result, because the final sort fixes the order. *)
Theorem extract_links_from_html_deterministic (order1 order2 : SetOrder)
    html base_url options :
  extract_links_from_html (order:=order1) html base_url options =
  extract_links_from_html (order:=order2) html base_url options.
Proof.
  unfold extract_links_from_html.
  destruct (collect_links _ _ _) as [collected|e]; simpl; [|done].
  destruct (py_get _ _ _) as [internal_only|e]; simpl; [|done].
  assert (list_set (SetOrder:=order1) collected
          ≡ₚ list_set (SetOrder:=order2) collected) as Hperm.
  { apply NoDup_Permutation; try apply list_set_NoDup.
    intros x. by rewrite !list_set_elem_of. }
  destruct (truthy internal_only); simpl.
  - destruct (urlparse base_url) as [base|e]; simpl; [|done].
    f_equal. apply sorted_canonical. by rewrite Hperm.
  - f_equal. by apply sorted_canonical.
Qed.

(** The orders do differ: the two instances list the same two links in
    opposite orders. *)
Remark set_orders_can_differ :
  list_set (SetOrder:=list_order) ["https://site.com/b"; "https://site.com/a"]
  <> list_set (SetOrder:=hash_order) ["https://site.com/b"; "https://site.com/a"].
Proof. vm_compute. discriminate. Qed.

(** An anchor of the tail of the list is an anchor of the list. *)
Local Ltac anchor_of_tail :=
  let h := fresh "h" in
  intros (h & ? & ? & ? & ?); exists h; do 2 eexists;
  split; [apply elem_of_cons; right; eassumption | eassumption].

(** An anchor of the list is its head, read with the option values [Hrq]
    and [Hra] of the run, or an anchor of the tail. *)
Local Ltac anchor_of_cons Hrq Hra :=
  let h := fresh "h" in
  let Hrq' := fresh "Hrq" in
  let Hra' := fresh "Hra" in
  intros (h & ? & ? & [-> | ?]%elem_of_cons & ? & ? & Hrq' & Hra' & ? & ?);
  [rewrite Hrq in Hrq'; rewrite Hra in Hra'; simplify_eq
  |try right; exists h; do 2 eexists; split_and!; eassumption].

(** The members of the list the anchor loop builds. *)
Lemma collect_links_elem_of hrefs base_url options collected link :
  collect_links hrefs base_url options = Ok collected ->
  link ∈ collected <->
  exists href remove_query remove_anchors,
    href ∈ hrefs /\ href <> "" /\ href <> "#" /\
    py_get options "remove_query" (JBool true) = Ok remove_query /\
    py_get options "remove_anchors" (JBool true) = Ok remove_anchors /\
    normalize_url href base_url remove_query remove_anchors = Some link /\
    link <> "".
Proof.
  revert collected. induction hrefs as [|href rest IH]; intros collected Hrun.
  - injection Hrun as <-. split; [by intros ?%elem_of_nil|].
    by intros (? & ? & ? & ?%elem_of_nil & _).
  - cbn [collect_links] in Hrun.
    destruct (String.eqb href "" || String.eqb href "#") eqn:Hskip.
    { rewrite (IH _ Hrun). split; [anchor_of_tail|].
      intros (h & rq & ra & [-> | Hin]%elem_of_cons & Hne & Hnh & Hrest).
      - apply orb_true_iff in Hskip as [?%String.eqb_eq | ?%String.eqb_eq]; done.
      - by exists h, rq, ra. }
    apply bind_Ok in Hrun as (rq & Hrq & Hrun).
    apply bind_Ok in Hrun as (ra & Hra & Hrun).
    apply orb_false_iff in Hskip as [Hne%String.eqb_neq Hnh%String.eqb_neq].
    destruct (normalize_url href base_url rq ra) as [u|] eqn:Hnorm;
      [destruct (String.eqb u "") eqn:Hu; simpl in Hrun|].
    + apply String.eqb_eq in Hu as ->. rewrite (IH _ Hrun).
      split; [anchor_of_tail | anchor_of_cons Hrq Hra].
    + apply String.eqb_neq in Hu. apply fmap_Ok in Hrun as (tail & Htail & ->).
      rewrite elem_of_cons, (IH _ Htail). split.
      * intros [-> | Hanchor]; [|revert Hanchor; anchor_of_tail].
        exists href, rq, ra. split_and!; try done. by apply elem_of_cons; left.
      * anchor_of_cons Hrq Hra. by left.
    + rewrite (IH _ Hrun). split; [anchor_of_tail | anchor_of_cons Hrq Hra].
Qed.

(** C3. The [internal_only] option controls the host filter.  The returned
    links are the anchor links that, when the option is true (or left
    out), parse to the network location of the base URL, by string
    equality; when the option is false every anchor link is returned,
    whatever its host. *)
Theorem internal_only_controls_host_filter {order : SetOrder}
    html base_url options links internal_only :
  extract_links_from_html html base_url options = Ok links ->
  py_get (options_or_default options) "internal_only" (JBool true)
    = Ok internal_only ->
  forall link,
    link ∈ links <->
    anchor_link html base_url (options_or_default options) link /\
    (truthy internal_only = true ->
     exists base parsed,
       urlparse base_url = Ok base /\ urlparse link = Ok parsed /\
       netloc parsed = netloc base).
Proof.
  intros Hrun Hget link.
  apply extract_links_from_html_Ok in Hrun
    as (collected & internal_only' & Hcollect & Hget' & Hlinks).
  rewrite Hget in Hget'. injection Hget' as <-.
  pose proof (collect_links_elem_of _ _ _ _ link Hcollect) as Hmem.
  destruct (truthy internal_only).
  - destruct Hlinks as (base & Hbase & ->).
    rewrite sorted_elem_of, list_elem_of_filter, list_set_elem_of, Hmem.
    unfold anchor_link, same_domain. split.
    + intros [Hsame Hanchor]. split; [done|]. intros _.
      destruct (urlparse link) as [parsed|e] eqn:Hparse; simpl in Hsame; [|done].
      apply String.eqb_eq in Hsame. eauto.
    + intros [Hanchor Hsame]. split; [|done].
      destruct (Hsame eq_refl) as (base' & parsed & Hbase' & Hparse & Hnetloc).
      rewrite Hbase in Hbase'. injection Hbase' as <-.
      rewrite Hparse. simpl. by apply String.eqb_eq.
  - subst links. rewrite sorted_elem_of, list_set_elem_of, Hmem.
    unfold anchor_link. split; [by intros ?|by intros [? _]].
Qed.

End ExtractorProperties.

(** ** Scenario A *)

Lemma scenario_a_collected options :
  options = JNull \/ options = JDict [] ->
  collect_links (urllib:=cpython_urllib) scenario_a_hrefs "https://site.com"
    (options_or_default options)
  = Ok ["https://site.com/a"; "https://other.com/x"; "https://site.com/a"].
Proof. by intros [-> | ->]; vm_compute. Qed.

Lemma scenario_a_internal_only options :
  options = JNull \/ options = JDict [] ->
  py_get (options_or_default options) "internal_only" (JBool true) = Ok (JBool true).
Proof. by intros [-> | ->]. Qed.

(** C5. For a page whose anchors carry the hrefs ["/a"], ["#"], the empty
    string, ["https://other.com/x"] and ["/a?x=1#frag"], with the base URL
    ["https://site.com"] and the default options (none given, or an empty
    dictionary), the extractor returns the single link
    ["https://site.com/a"]. *)
Theorem scenario_a_all_links {soup : HtmlParser} {order : SetOrder} html options :
  find_all_a_href html = scenario_a_hrefs ->
  options = JNull \/ options = JDict [] ->
  extract_links_from_html (urllib:=cpython_urllib) html "https://site.com" options
  = Ok ["https://site.com/a"].
Proof.
  intros Hhrefs Hopt. unfold extract_links_from_html.
  rewrite Hhrefs, (scenario_a_collected _ Hopt), (scenario_a_internal_only _ Hopt).
  clear Hhrefs Hopt. simpl. f_equal.
  change ["https://site.com/a"] with (sorted ["https://site.com/a"]) at 2.
  apply sorted_canonical, NoDup_Permutation.
  - apply NoDup_filter, list_set_NoDup.
  - apply NoDup_singleton.
  - intros link. rewrite list_elem_of_filter, list_set_elem_of, list_elem_of_singleton.
    split.
    + intros [Hsame Hin]. set_unfold in Hin.
      destruct Hin as [-> | [-> | [-> | []]]]; [done | | done].
      by vm_compute in Hsame.
    + intros ->. split; [by vm_compute | set_solver].
Qed.

Lemma scenario_a_all_links_witness :
  extract_links_from_html (urllib:=cpython_urllib) (soup:=anchor_scanner)
    (order:=hash_order) scenario_a_html "https://site.com" JNull
  = Ok ["https://site.com/a"].
Proof.
  apply (scenario_a_all_links (soup:=anchor_scanner) (order:=hash_order)).
  - by vm_compute.
  - by left.
Defined.

Lemma all_links_sorted_without_duplicates_witness :
  NoDup ["https://other.com/x"; "https://site.com/a"; "https://site.com/a?x=1"] /\
  StronglySorted String.le
    ["https://other.com/x"; "https://site.com/a"; "https://site.com/a?x=1"].
Proof.
  apply (proj1 (all_links_sorted_without_duplicates
                  (urllib:=cpython_urllib) (soup:=anchor_scanner) (order:=hash_order)
                  scenario_a_html "https://site.com"
                  (JDict [("internal_only", JBool false); ("remove_query", JNum 0)]))).
  by vm_compute.
Defined.

Lemma internal_only_controls_host_filter_witness :
  ("https://site.com/a" ∈ ["https://site.com/a"] <->
   anchor_link (urllib:=cpython_urllib) (soup:=anchor_scanner)
     scenario_a_html site (options_or_default JNull) "https://site.com/a" /\
   (truthy (JBool true) = true ->
    exists base parsed,
      urlparse (UrlLib:=cpython_urllib) site = Ok base /\
      urlparse (UrlLib:=cpython_urllib) "https://site.com/a" = Ok parsed /\
      netloc parsed = netloc base)) /\
  ("https://other.com/x" ∈ ["https://other.com/x"; "https://site.com/a"] <->
   anchor_link (urllib:=cpython_urllib) (soup:=anchor_scanner)
     scenario_a_html site (options_or_default all_hosts) "https://other.com/x" /\
   (truthy (JBool false) = true ->
    exists base parsed,
      urlparse (UrlLib:=cpython_urllib) site = Ok base /\
      urlparse (UrlLib:=cpython_urllib) "https://other.com/x" = Ok parsed /\
      netloc parsed = netloc base)).
Proof.
  split.
  - apply (internal_only_controls_host_filter
             (urllib:=cpython_urllib) (soup:=anchor_scanner) (order:=hash_order)
             scenario_a_html site JNull); [by vm_compute | reflexivity].
  - apply (internal_only_controls_host_filter
             (urllib:=cpython_urllib) (soup:=anchor_scanner) (order:=hash_order)
             scenario_a_html site all_hosts); [by vm_compute | reflexivity].
Defined.

(** ** The history store *)

Lemma load_history_eq w : load_history w = (Ok (history_of w), with_data_dir w).
Proof.
  unfold load_history, bind, ensure_data_dir, history_of, with_data_dir. simpl.
  by destruct (history_file w) as [[|j]|].
Qed.

Lemma history_of_with_data_dir w : history_of (with_data_dir w) = history_of w.
Proof. done. Qed.

(** The history does not depend on the directory flag or on the requests
    sent. *)
Lemma history_of_same_file w dir sent_urls :
  history_of (mkWorld dir (history_file w) sent_urls) = history_of w.
Proof. done. Qed.

Lemma history_of_sent {net : Network} url w : history_of (sent url w) = history_of w.
Proof. done. Qed.

(** A fetch gives one page. *)
Lemma fetched_unique {net : Network} url text text' :
  fetched url text -> fetched url text' -> text' = text.
Proof.
  intros (page & Hget & _ & <-) (page' & Hget' & _ & <-). congruence.
Qed.

(** Keeping the first 50 entries, as lines 49 and 50 do. *)
Lemma truncate_take (history : list json) :
  (if (50 <? length history)%nat then take 50 history else history) = take 50 history.
Proof.
  destruct (Nat.ltb_spec 50 (length history)); [done|].
  by rewrite take_ge by lia.
Qed.

Lemma save_history_list record w items :
  history_of w = JList items ->
  save_history record w =
    (Ok true, mkWorld true (Some (Stored (JList (take 50 (record :: items)))))
                (requests_sent w)).
Proof.
  intros Hitems. unfold save_history, load_history, bind, ensure_data_dir.
  unfold history_of in Hitems. cbn [history_file data_dir requests_sent].
  destruct (history_file w) as [[|j]|]; simplify_eq; cbn [py_insert0];
    rewrite truncate_take; reflexivity.
Qed.

(** A history that is not a list is left as it is. *)
Lemma save_history_not_list record w :
  (forall items, history_of w <> JList items) ->
  save_history record w = (Ok false, with_data_dir w).
Proof.
  intros Hno. unfold save_history, load_history, bind, ensure_data_dir, with_data_dir.
  unfold history_of in Hno. cbn [history_file data_dir requests_sent].
  destruct (history_file w) as [[|j]|]; try by destruct (Hno []).
  destruct j as [| | | |items|]; try reflexivity. by destruct (Hno items).
Qed.

Lemma take_app_take {A} n (l1 l2 : list A) :
  take n (l1 ++ take n l2) = take n (l1 ++ l2).
Proof. rewrite !take_app, take_take. do 2 f_equal. lia. Qed.

Lemma appends_cons record records w :
  appends (record :: records) w = appends records (snd (save_history record w)).
Proof. done. Qed.

Lemma appends_history records : forall w items,
  history_of w = JList items ->
  records <> [] ->
  history_of (appends records w) = JList (take 50 (reverse records ++ items)).
Proof.
  induction records as [|record records IH]; intros w items Hitems Hne; [done|].
  rewrite appends_cons, (save_history_list _ _ _ Hitems). cbn [snd].
  destruct records as [|record' records'].
  - done.
  - erewrite IH; [|done|done].
    rewrite take_app_take, (reverse_cons _ record), <-(assoc_L (++)). done.
Qed.

(** C7. In every world whose history is a list, [save_history] puts the
    record at position 0 and keeps the first 50 entries; after 51 calls
    [load_history] returns exactly 50 records, the most recent first, the
    record of the first call being dropped. *)
Theorem history_capacity :
  (forall record w items,
     fst (load_history w) = Ok (JList items) ->
     fst (save_history record w) = Ok true /\
     fst (load_history (snd (save_history record w)))
       = Ok (JList (take 50 (record :: items)))) /\
  (forall records w items,
     fst (load_history w) = Ok (JList items) ->
     length records = 51 ->
     fst (load_history (appends records w)) = Ok (JList (reverse (drop 1 records))) /\
     length (reverse (drop 1 records)) = 50).
Proof.
  split.
  - intros record w items. rewrite !load_history_eq. cbn [fst]. intros [= Hitems].
    by rewrite (save_history_list _ _ _ Hitems).
  - intros records w items. rewrite !load_history_eq. cbn [fst]. intros [= Hitems] Hlen.
    rewrite (appends_history _ _ _ Hitems) by (by intros ->).
    destruct records as [|first rest]; [done|]. cbn [drop].
    injection Hlen as Hlen. split; [|by rewrite length_reverse].
    rewrite reverse_cons, <-(assoc_L (++)), take_app_le by (rewrite length_reverse; lia).
    by rewrite take_ge by (rewrite length_reverse; lia).
Qed.

Lemma history_capacity_witness :
  (fst (save_history (JNum 7) empty_world) = Ok true /\
   fst (load_history (snd (save_history (JNum 7) empty_world)))
     = Ok (JList (take 50 [JNum 7]))) /\
  (fst (load_history (appends fifty_one_records empty_world))
     = Ok (JList (reverse (drop 1 fifty_one_records))) /\
   length (reverse (drop 1 fifty_one_records)) = 50).
Proof.
  split.
  - apply (proj1 history_capacity (JNum 7) empty_world []). reflexivity.
  - apply (proj2 history_capacity fifty_one_records empty_world []); reflexivity.
Defined.

(** ** The extraction handler: validation and fetch *)

Lemma dict_get_Some_truthy k kvs v : dict_get k kvs = Some v -> truthy (JDict kvs) = true.
Proof. by destruct kvs. Qed.

Section HandlerProperties.
Context {urllib : UrlLib} {soup : HtmlParser} {order : SetOrder} {net : Network}.

Lemma extract_links_no_url data now w :
  truthy data = false \/ py_contains "url" data = Ok false ->
  extract_links (Ok data) now w = (ClientError msg_no_url, w).
Proof.
  unfold extract_links, extract_links_body, bind, lift, ret.
  intros [Hfalsy | Hin].
  - by rewrite Hfalsy.
  - rewrite Hin. by destruct (truthy data).
Qed.

(** The validation of a request that carries a string under [url]. *)
Lemma extract_links_body_url kvs url now w :
  dict_get "url" kvs = Some (JStr url) ->
  extract_links_body (Ok (JDict kvs)) now w =
    match urlparse (strip url) with
    | Raise _ => (Ok (ClientError msg_bad_format), w)
    | Ok parsed_url =>
        if String.eqb (scheme parsed_url) "" || String.eqb (netloc parsed_url) ""
        then (Ok (ClientError msg_invalid_url), w)
        else fetch_and_extract (strip url) (request_options kvs) now w
    end.
Proof.
  intros Hurl. unfold extract_links_body, bind, lift, ret.
  rewrite (dict_get_Some_truthy _ _ _ Hurl).
  cbn [negb py_contains py_getitem py_get fmap result_fmap].
  rewrite Hurl. rewrite bool_decide_eq_true_2 by eauto.
  cbn [negb py_strip]. fold (request_options kvs).
  destruct (urlparse (strip url)) as [parsed_url|e]; [|done].
  by destruct (_ || _).
Qed.

(** A request that passes validation goes on to the fetch. *)
Lemma extract_links_body_valid kvs url parsed_url now w :
  dict_get "url" kvs = Some (JStr url) ->
  urlparse (strip url) = Ok parsed_url ->
  scheme parsed_url <> "" ->
  netloc parsed_url <> "" ->
  extract_links_body (Ok (JDict kvs)) now w =
    fetch_and_extract (strip url) (request_options kvs) now w.
Proof.
  intros Hurl Hparse Hscheme Hnetloc.
  rewrite (extract_links_body_url _ _ _ _ Hurl), Hparse.
  apply String.eqb_neq in Hscheme, Hnetloc. by rewrite Hscheme, Hnetloc.
Qed.

(** A [url] that does not parse into a scheme and a network location is
    rejected before the fetch. *)
Lemma extract_links_invalid_url kvs url now w :
  dict_get "url" kvs = Some (JStr url) ->
  (forall parsed_url,
     urlparse (strip url) = Ok parsed_url ->
     scheme parsed_url = "" \/ netloc parsed_url = "") ->
  exists message,
    (message = msg_invalid_url \/ message = msg_bad_format) /\
    message <> msg_no_url /\
    extract_links (Ok (JDict kvs)) now w = (ClientError message, w).
Proof.
  intros Hurl Hbad. unfold extract_links.
  rewrite (extract_links_body_url _ _ _ _ Hurl).
  destruct (urlparse (strip url)) as [parsed_url|e].
  - exists msg_invalid_url. split_and!; [by left|discriminate|].
    destruct (Hbad parsed_url eq_refl) as [-> | ->]; [done|].
    by rewrite orb_true_r.
  - exists msg_bad_format. split_and!; [by right|discriminate|done].
Qed.

(** The fetch of lines 157 to 161, case by case. *)
Lemma fetch_and_extract_fetched target_url text options now w :
  fetched target_url text ->
  fetch_and_extract target_url options now w
  = extract_and_save text target_url options now (sent target_url w).
Proof.
  intros (page & Hget & Hstatus & <-).
  unfold fetch_and_extract, bind, http_get. by rewrite Hget, Hstatus.
Qed.

Lemma fetch_and_extract_cases target_url options now w :
  (exists text, fetched target_url text) \/
  (exists cause,
     fetch_and_extract target_url options now w
     = (Ok (ClientError (msg_fetch_failed +:+ cause)), sent target_url w)) \/
  (exists e,
     fetch_and_extract target_url options now w = (Raise e, sent target_url w)).
Proof.
  unfold fetch_and_extract, bind, http_get.
  destruct (requests_get target_url) as [page|cause|e] eqn:Hget.
  - destruct (raise_for_status page) as [cause|] eqn:Hstatus.
    + right; left. by exists cause.
    + left. exists (resp_text page). by exists page.
  - right; left. by exists cause.
  - right; right. by exists e.
Qed.



End HandlerProperties.

(** C6, as the code has it.  A request whose body is empty or has no [url]
    entry is rejected with status 400 and the no-URL message.  A request
    whose [url] is a string that, once stripped, does not parse into both a
    scheme and a network location is rejected with status 400 and one of
    the two invalid-URL messages; with [urllib.parse] this is the case of
    a [url] that is empty once stripped.  In each case the world is left as
    it was: nothing is fetched and nothing is written. *)
Theorem validation_rejects_before_fetch
    {soup : HtmlParser} {order : SetOrder} {net : Network} now w :
  (forall (urllib : UrlLib) data,
     truthy data = false \/ py_contains "url" data = Ok false ->
     extract_links (Ok data) now w = (ClientError msg_no_url, w)) /\
  (forall (urllib : UrlLib) kvs url,
     dict_get "url" kvs = Some (JStr url) ->
     (forall parsed_url,
        urlparse (strip url) = Ok parsed_url ->
        scheme parsed_url = "" \/ netloc parsed_url = "") ->
     exists message,
       (message = msg_invalid_url \/ message = msg_bad_format) /\
       message <> msg_no_url /\
       extract_links (Ok (JDict kvs)) now w = (ClientError message, w)) /\
  (forall kvs url,
     dict_get "url" kvs = Some (JStr url) ->
     strip url = "" ->
     extract_links (urllib:=cpython_urllib) (Ok (JDict kvs)) now w
       = (ClientError msg_invalid_url, w)).
Proof.
  split_and!.
  - intros urllib data. apply extract_links_no_url.
  - intros urllib kvs url. apply extract_links_invalid_url.
  - intros kvs url Hurl Hstrip. unfold extract_links.
    by rewrite (extract_links_body_url _ _ _ _ Hurl), Hstrip.
Qed.

Lemma validation_rejects_before_fetch_witness :
  extract_links (urllib:=cpython_urllib) (soup:=anchor_scanner) (order:=hash_order)
    (net:=unreachable "timeout") (Ok (JDict [("options", JDict [])])) "t" used_world
    = (ClientError msg_no_url, used_world) /\
  (exists message,
     (message = msg_invalid_url \/ message = msg_bad_format) /\
     message <> msg_no_url /\
     extract_links (urllib:=cpython_urllib) (soup:=anchor_scanner) (order:=hash_order)
       (net:=unreachable "timeout") (Ok (JDict [("url", JStr "not a url")])) "t" used_world
       = (ClientError message, used_world)) /\
  extract_links (urllib:=cpython_urllib) (soup:=anchor_scanner) (order:=hash_order)
    (net:=unreachable "timeout") (Ok (JDict [("url", JStr "   ")])) "t" used_world
    = (ClientError msg_invalid_url, used_world).
Proof.
  destruct (validation_rejects_before_fetch (soup:=anchor_scanner) (order:=hash_order)
              (net:=unreachable "timeout") "t" used_world) as (Hmissing & Hinvalid & Hblank).
  split_and!.
  - apply (Hmissing cpython_urllib). right. reflexivity.
  - apply (Hinvalid cpython_urllib _ "not a url"); [reflexivity|].
    intros parsed_url [= <-]. left. reflexivity.
  - apply (Hblank _ "   "); reflexivity.
Defined.

(** The claim C6 as the specification states it fails on a [url] made of
    blanks: it is empty once stripped, and the response does not carry the
    no-URL message. *)
Lemma blank_url_is_not_reported_as_missing :
  strip "   " = "" /\
  fst (extract_links (urllib:=cpython_urllib) (soup:=anchor_scanner) (order:=hash_order)
         (net:=unreachable "timeout") (Ok (JDict [("url", JStr "   ")])) "t" empty_world)
  <> ClientError msg_no_url.
Proof. split; [reflexivity|]. vm_compute. discriminate. Qed.

(** ** The extraction handler: diff and save *)

Lemma save_history_returns record w : exists saved, fst (save_history record w) = Ok saved.
Proof.
  destruct (history_of w) as [| | | |items|] eqn:Hh;
    try (rewrite save_history_not_list by (intros ?; congruence); by eexists).
  rewrite (save_history_list _ _ _ Hh). by eexists.
Qed.

(** The first record for [url] in a list of items, as the loop finds it. *)
Lemma find_previous_Some url items previous :
  find_previous url items = Ok (Some previous) ->
  exists before after,
    items = before ++ previous :: after /\
    Forall (fun item => record_for url item = false) before /\
    record_for url previous = true.
Proof.
  induction items as [|item rest IH]; simpl; [done|].
  intros Hfind. apply bind_Ok in Hfind as (base_url & Hget & Hfind).
  destruct (eq_str url base_url) eqn:Heq.
  - injection Hfind as ->. exists [], rest. split_and!; [done|constructor|].
    unfold record_for. by rewrite Hget.
  - destruct (IH Hfind) as (before & after & -> & Hbefore & Hprev).
    exists (item :: before), after. split_and!; [done| |done].
    constructor; [|done]. unfold record_for. by rewrite Hget.
Qed.

Lemma find_previous_None url items :
  find_previous url items = Ok None ->
  Forall (fun item => record_for url item = false) items.
Proof.
  induction items as [|item rest IH]; simpl; [constructor|].
  intros Hfind. apply bind_Ok in Hfind as (base_url & Hget & Hfind).
  destruct (eq_str url base_url) eqn:Heq; [done|].
  constructor; [|by apply IH]. unfold record_for. by rewrite Hget.
Qed.

(** The record the loop finds is determined by the items before it. *)
Lemma find_previous_first url before previous after :
  Forall (fun item => record_for url item = false) before ->
  record_for url previous = true ->
  (forall item, item ∈ before -> exists kvs, item = JDict kvs) ->
  find_previous url (before ++ previous :: after) = Ok (Some previous).
Proof.
  intros Hbefore Hprev Hdicts.
  induction before as [|item before IH]; simpl.
  - unfold record_for in Hprev.
    destruct (py_get previous "base_url" JNull) as [base_url|e]; simpl in *; [|done].
    by rewrite Hprev.
  - apply Forall_cons in Hbefore as [Hitem Hbefore].
    destruct (Hdicts item) as [kvs ->]; [set_solver|].
    unfold record_for in Hitem. simpl in *. rewrite Hitem.
    apply IH; [done|]. intros ??. apply Hdicts. set_solver.
Qed.

Lemma str_in_strings link links : str_in link (JStr <$> links) = false <-> link ∉ links.
Proof.
  unfold str_in. induction links as [|l links IH]; simpl.
  - split; [set_solver|done].
  - rewrite orb_false_iff, IH, not_elem_of_cons, String.eqb_neq.
    split; intros [Hhead Htail]; split; congruence.
Qed.

Lemma filter_not_in_nil (links : list string) :
  filter (fun link => link ∉ @nil string) links = links.
Proof.
  induction links as [|link links IH]; [done|].
  rewrite filter_cons_True by apply not_elem_of_nil. by rewrite IH.
Qed.

Lemma hashable_strings links : forallb hashable (JStr <$> links) = true.
Proof. by induction links. Qed.

(** The diff against a record whose [all_links] is a list of strings, or
    that has no such entry. *)
Lemma diff_links_previous previous previous_links all_links :
  truthy previous = true ->
  py_get previous "all_links" (JList []) = Ok (JList (JStr <$> previous_links)) ->
  diff_links (Some previous) all_links
  = Ok (filter (fun link => link ∉ previous_links) all_links).
Proof.
  intros Htruthy Hget. unfold diff_links. rewrite Htruthy, Hget. simpl.
  unfold py_set. simpl. rewrite hashable_strings.
  unfold mbind, result_bind. f_equal.
  apply list_filter_iff. intros link. apply str_in_strings.
Qed.

Lemma record_for_truthy url item : record_for url item = true -> truthy item = true.
Proof.
  unfold record_for. destruct item as [| | | | |kvs]; try done.
  destruct kvs; [|done]. by destruct url.
Qed.

Lemma diff_links_sublist previous all_links new_links :
  diff_links previous all_links = Ok new_links -> sublist new_links all_links.
Proof.
  unfold diff_links. destruct previous as [previous|]; [|by intros [= <-]].
  destruct (truthy previous); [|by intros [= <-]].
  intros Hdiff. apply bind_Ok in Hdiff as (stored & _ & Hdiff).
  apply bind_Ok in Hdiff as (previous_links & _ & [= <-]).
  apply sublist_filter.
Qed.

Section DiffProperties.
Context {urllib : UrlLib} {soup : HtmlParser} {order : SetOrder} {net : Network}.

(** Lines 163 to 188, step by step. *)
Lemma extract_and_save_eq text target_url options now w :
  extract_and_save text target_url options now w =
    match extract_links_from_html text target_url options with
    | Raise e => (Raise e, w)
    | Ok all_links =>
        match py_iter (history_of w) ≫= find_previous target_url with
        | Raise e => (Raise e, with_data_dir w)
        | Ok previous_data =>
            match diff_links previous_data all_links with
            | Raise e => (Raise e, with_data_dir w)
            | Ok new_links =>
                let result :=
                  make_result target_url all_links new_links now options in
                (Ok (Success result), snd (save_history result (with_data_dir w)))
            end
        end
    end.
Proof.
  unfold extract_and_save, get_previous_data, bind, lift, ret.
  destruct (extract_links_from_html _ _ _) as [all_links|e]; [|done].
  rewrite load_history_eq.
  destruct (py_iter (history_of w)) as [items|e]; simpl; [|done].
  destruct (find_previous target_url items) as [previous_data|e]; [|done].
  destruct (diff_links previous_data all_links) as [new_links|e]; [|done].
  destruct (save_history_returns
              (make_result target_url all_links new_links now options)
              (with_data_dir w)) as [saved Hsaved].
  destruct (save_history _ _) as [r w2]. simpl in *. by rewrite Hsaved.
Qed.

(** Only a dictionary with a string under [url] gets past validation. *)
Lemma extract_links_body_fetches data now w :
  (exists message, extract_links (Ok data) now w = (ClientError message, w)) \/
  (exists e, extract_links (Ok data) now w = (ServerError e, w)) \/
  (exists kvs url,
     data = JDict kvs /\ dict_get "url" kvs = Some (JStr url) /\
     extract_links_body (Ok data) now w
       = fetch_and_extract (strip url) (request_options kvs) now w).
Proof.
  destruct data as [|b|n|s|l|kvs].
  - left. by eexists.
  - destruct b; [right; left|left]; by eexists.
  - unfold extract_links, extract_links_body, bind, lift, ret. simpl.
    destruct (negb (n =? 0)%Z); [right; left|left]; by eexists.
  - unfold extract_links, extract_links_body, bind, lift, ret. simpl.
    destruct (negb (String.eqb s "")); simpl; [|left; by eexists].
    destruct (str_contains "url" s); simpl; [right; left|left]; by eexists.
  - unfold extract_links, extract_links_body, bind, lift, ret. simpl.
    destruct l as [|item l]; simpl; [left; by eexists|].
    destruct (eq_str "url" item || existsb (eq_str "url") l); simpl;
      [right; left|left]; by eexists.
  - destruct (dict_get "url" kvs) as [v|] eqn:Hurl.
    + destruct v as [| | |url| |];
        try (right; left; unfold extract_links, extract_links_body, bind, lift, ret;
             rewrite (dict_get_Some_truthy _ _ _ Hurl); simpl; rewrite Hurl;
             rewrite bool_decide_eq_true_2 by eauto; simpl; by eexists).
      rewrite (extract_links_body_url _ _ _ _ Hurl). unfold extract_links.
      rewrite (extract_links_body_url _ _ _ _ Hurl).
      destruct (urlparse (strip url)) as [parsed_url|e]; [|left; by eexists].
      destruct (_ || _); [left; by eexists|]. right; right. by exists kvs, url.
    + left. exists msg_no_url. apply extract_links_no_url. right. simpl.
      rewrite Hurl. by rewrite bool_decide_eq_false_2 by (by intros [??]).
Qed.

Lemma get_previous_data_eq url w :
  get_previous_data url w
  = (py_iter (history_of w) ≫= find_previous url, with_data_dir w).
Proof.
  unfold get_previous_data, bind, lift. rewrite load_history_eq.
  by destruct (py_iter (history_of w)).
Qed.

(** What a request that got a response with status 200 went through. *)
Lemma extract_links_Success data now w r w' :
  extract_links (Ok data) now w = (Success r, w') ->
  exists kvs url text all_links previous_data new_links,
    data = JDict kvs /\ dict_get "url" kvs = Some (JStr url) /\
    fetched (strip url) text /\
    extract_links_from_html text (strip url) (request_options kvs) = Ok all_links /\
    py_iter (history_of w) ≫= find_previous (strip url) = Ok previous_data /\
    diff_links previous_data all_links = Ok new_links /\
    r = make_result (strip url) all_links new_links now (request_options kvs).
Proof.
  intros Hrun.
  destruct (extract_links_body_fetches data now w)
    as [[message Hm] | [[e He] | (kvs & url & -> & Hurl & Hbody)]];
    [congruence | congruence |].
  unfold extract_links in Hrun. rewrite Hbody in Hrun.
  destruct (fetch_and_extract_cases (strip url) (request_options kvs) now w)
    as [[text Hfetch] | [[cause Hfailed] | [e Hfailed]]];
    [|by rewrite Hfailed in Hrun..].
  rewrite (fetch_and_extract_fetched _ _ _ _ _ Hfetch), extract_and_save_eq in Hrun.
  destruct (extract_links_from_html _ _ _) as [all_links|e] eqn:Hextract; [|done].
  change (history_of _) with (history_of w) in Hrun.
  destruct (py_iter (history_of w) ≫= find_previous (strip url))
    as [previous_data|e] eqn:Hprev; [|done].
  destruct (diff_links previous_data all_links) as [new_links|e] eqn:Hdiff; [|done].
  injection Hrun as <- _.
  by exists kvs, url, text, all_links, previous_data, new_links.
Qed.

(** The loop stops at the first record for the URL. *)
Lemma find_previous_app url before previous after found :
  find_previous url (before ++ previous :: after) = Ok found ->
  Forall (fun item => record_for url item = false) before ->
  record_for url previous = true ->
  found = Some previous.
Proof.
  intros Hfind Hbefore Hprev. induction Hbefore as [|item before Hitem _ IH];
    simpl in Hfind; apply bind_Ok in Hfind as (base_url & Hget & Hfind).
  - unfold record_for in Hprev. rewrite Hget in Hprev. simpl in Hprev.
    rewrite Hprev in Hfind. by injection Hfind.
  - unfold record_for in Hitem. rewrite Hget in Hitem. simpl in Hitem.
    rewrite Hitem in Hfind. by apply IH.
Qed.

(** C2. In every successful extraction, [new_links] is a subsequence of
    the freshly extracted [all_links], in the same order: when the
    history has a record with the same [base_url], it keeps the links that
    are not in the [all_links] of the first (most recent) such record;
    when the history has none, it is [all_links]. *)
Theorem new_links_are_the_links_not_seen_before data now w r w' :
  extract_links (Ok data) now w = (Success r, w') ->
  exists target_url all_links new_links options items,
    r = make_result target_url all_links new_links now options /\
    py_iter (history_of w) = Ok items /\
    sublist new_links all_links /\
    (Forall (fun item => record_for target_url item = false) items ->
     new_links = all_links) /\
    (forall before previous after previous_links,
       items = before ++ previous :: after ->
       Forall (fun item => record_for target_url item = false) before ->
       record_for target_url previous = true ->
       py_get previous "all_links" (JList [])
         = Ok (JList (JStr <$> previous_links)) ->
       new_links = filter (fun link => link ∉ previous_links) all_links).
Proof.
  intros Hrun. apply extract_links_Success in Hrun
    as (kvs & url & text & all_links & previous_data & new_links
        & -> & Hurl & Hfetch & Hextract & Hprev & Hdiff & ->).
  apply bind_Ok in Hprev as (items & Hitems & Hfind).
  exists (strip url), all_links, new_links, (request_options kvs), items.
  split_and!; [done | done | by eapply diff_links_sublist | |].
  - intros Hnone. destruct previous_data as [previous|].
    + apply find_previous_Some in Hfind as (before & after & -> & _ & Hrec).
      apply Forall_app in Hnone as [_ Hnone]. apply Forall_cons in Hnone as [Hno _].
      congruence.
    + by injection Hdiff.
  - intros before previous after previous_links -> Hbefore Hrec Hget.
    rewrite (find_previous_app _ _ _ _ _ Hfind Hbefore Hrec) in Hdiff.
    rewrite (diff_links_previous _ previous_links) in Hdiff
      by eauto using record_for_truthy.
    by injection Hdiff.
Qed.

(** C10. The diff is total on a record without [all_links]: when the
    record found for the base URL has no such entry, the extraction
    answers with status 200 and every extracted link counts as new. *)
Theorem diff_is_total_without_all_links
    kvs url parsed_url text all_links fields now w :
  dict_get "url" kvs = Some (JStr url) ->
  urlparse (strip url) = Ok parsed_url ->
  scheme parsed_url <> "" ->
  netloc parsed_url <> "" ->
  fetched (strip url) text ->
  extract_links_from_html text (strip url) (request_options kvs) = Ok all_links ->
  fst (get_previous_data (strip url) w) = Ok (Some (JDict fields)) ->
  dict_get "all_links" fields = None ->
  fst (extract_links (Ok (JDict kvs)) now w)
  = Success (make_result (strip url) all_links all_links now (request_options kvs)).
Proof.
  intros Hurl Hparse Hscheme Hnetloc Hfetch Hextract Hprev Hfield.
  rewrite get_previous_data_eq in Hprev. simpl in Hprev.
  unfold extract_links.
  rewrite (extract_links_body_valid _ _ _ _ _ Hurl Hparse Hscheme Hnetloc).
  rewrite (fetch_and_extract_fetched _ _ _ _ _ Hfetch).
  rewrite extract_and_save_eq, Hextract.
  change (history_of _) with (history_of w). rewrite Hprev.
  assert (truthy (JDict fields) = true) as Htruthy.
  { apply bind_Ok in Hprev as (items & _ & Hfind).
    apply find_previous_Some in Hfind as (_ & _ & _ & _ & Hrec).
    by eapply record_for_truthy. }
  rewrite (diff_links_previous _ []) by (by simpl; rewrite ?Hfield).
  by rewrite filter_not_in_nil.
Qed.


End DiffProperties.

(** ** Options left out and options given with their default values *)

Lemma leaves_defaults_get options key :
  leaves_defaults options = true ->
  key ∈ option_keys ->
  py_get (JDict options) key (JBool true) = Ok (JBool true).
Proof.
  unfold leaves_defaults. rewrite forallb_forall. intros Hall Hkey.
  apply list_elem_of_In, Hall in Hkey. simpl.
  destruct (dict_get key options) as [[|[]| | | |]|]; done.
Qed.

Section Defaults.
Context {urllib : UrlLib} {soup : HtmlParser} {order : SetOrder} {net : Network}.

Lemma collect_links_defaults hrefs base_url options :
  leaves_defaults options = true ->
  collect_links hrefs base_url (JDict options)
  = collect_links hrefs base_url (JDict []).
Proof.
  intros Hdef. induction hrefs as [|href rest IH]; [done|].
  cbn [collect_links]. rewrite IH.
  rewrite !(leaves_defaults_get options) by (done || set_solver).
  reflexivity.
Qed.

(** The extractor does not tell such a dictionary from an empty one, nor
    from no options at all. *)
Lemma extract_links_from_html_defaults html base_url options :
  leaves_defaults options = true ->
  extract_links_from_html html base_url (JDict options)
  = extract_links_from_html html base_url (JDict []).
Proof.
  intros Hdef. unfold extract_links_from_html, options_or_default.
  rewrite (collect_links_defaults _ _ _ Hdef).
  by rewrite (leaves_defaults_get options) by (done || set_solver).
Qed.

Lemma extract_links_from_html_None html base_url :
  extract_links_from_html html base_url JNull
  = extract_links_from_html html base_url (JDict []).
Proof. apply (extract_links_from_html_defaults _ _ [_; _; _]). reflexivity. Qed.

(** The handler reads two entries of the request: [url] and [options]. *)
Lemma extract_links_body_dict kvs now w :
  extract_links_body (Ok (JDict kvs)) now w =
    match dict_get "url" kvs with
    | None => (Ok (ClientError msg_no_url), w)
    | Some url =>
        match py_strip url with
        | Raise e => (Raise e, w)
        | Ok target_url =>
            match urlparse target_url with
            | Raise _ => (Ok (ClientError msg_bad_format), w)
            | Ok parsed_url =>
                if String.eqb (scheme parsed_url) ""
                   || String.eqb (netloc parsed_url) ""
                then (Ok (ClientError msg_invalid_url), w)
                else fetch_and_extract target_url (request_options kvs) now w
            end
        end
    end.
Proof.
  destruct (dict_get "url" kvs) as [url|] eqn:Hurl.
  - destruct url as [| | |url| |];
      try (unfold extract_links_body, bind, lift, ret;
           rewrite (dict_get_Some_truthy _ _ _ Hurl); simpl; rewrite Hurl;
           by rewrite bool_decide_eq_true_2 by eauto).
    apply (extract_links_body_url _ _ _ _ Hurl).
  - unfold extract_links_body, bind, lift, ret. simpl. rewrite Hurl.
    rewrite bool_decide_eq_false_2 by (by intros [??]). by destruct kvs.
Qed.

(** C4, as the code has it.  A request without [options] and the same
    request with an option dictionary in which the three options are
    absent or true get the same response, except that a successful
    response echoes the options as they were sent: an empty dictionary
    in the first case, the dictionary given in the second. *)
Theorem omitted_options_same_links kvs kvs' options now w :
  dict_get "options" kvs = None ->
  dict_get "options" kvs' = Some (JDict options) ->
  dict_get "url" kvs' = dict_get "url" kvs ->
  leaves_defaults options = true ->
  (fst (extract_links (Ok (JDict kvs')) now w)
     = fst (extract_links (Ok (JDict kvs)) now w) /\
   forall r, fst (extract_links (Ok (JDict kvs)) now w) <> Success r) \/
  (exists target_url all_links new_links,
     fst (extract_links (Ok (JDict kvs)) now w)
       = Success (make_result target_url all_links new_links now (JDict [])) /\
     fst (extract_links (Ok (JDict kvs')) now w)
       = Success (make_result target_url all_links new_links now (JDict options))).
Proof.
  intros Hnone Hsome Hurl Hdef. unfold extract_links.
  rewrite !extract_links_body_dict, Hurl.
  unfold request_options. rewrite Hnone, Hsome. cbn [default from_option].
  destruct (dict_get "url" kvs) as [url|]; [|by left].
  destruct (py_strip url) as [target_url|e]; [|by left].
  destruct (urlparse target_url) as [parsed_url|e]; [|by left].
  destruct (_ || _); [by left|].
  unfold fetch_and_extract, bind, http_get.
  destruct (requests_get target_url) as [page|cause|e]; [|by left..].
  destruct (raise_for_status page) as [cause|]; [by left|].
  generalize (resp_text page). intros text.
  rewrite !extract_and_save_eq, (extract_links_from_html_defaults _ _ _ Hdef).
  destruct (extract_links_from_html text target_url (JDict [])) as [all_links|e];
    [|by left].
  change (history_of _) with (history_of w).
  destruct (py_iter (history_of w) ≫= find_previous target_url)
    as [previous_data|e]; [|by left].
  destruct (diff_links previous_data all_links) as [new_links|e]; [|by left].
  right. by exists target_url, all_links, new_links.
Qed.

End Defaults.

(** ** The scenarios, run on the model *)

Lemma new_links_are_the_links_not_seen_before_witness :
  exists target_url all_links new_links options items,
    second_visit_record = make_result target_url all_links new_links "t1" options /\
    py_iter (history_of after_first_visit) = Ok items /\
    sublist new_links all_links /\
    (Forall (fun item => record_for target_url item = false) items ->
     new_links = all_links) /\
    (forall before previous after previous_links,
       items = before ++ previous :: after ->
       Forall (fun item => record_for target_url item = false) before ->
       record_for target_url previous = true ->
       py_get previous "all_links" (JList []) = Ok (JList (JStr <$> previous_links)) ->
       new_links = filter (fun link => link ∉ previous_links) all_links).
Proof.
  apply (new_links_are_the_links_not_seen_before
           (urllib:=cpython_urllib) (soup:=anchor_scanner) (order:=hash_order)
           (net:=one_page site scenario_a_html)
           site_request "t1" after_first_visit second_visit_record
           (snd (visit site_request "t1" after_first_visit))).
  by vm_compute.
Defined.

Lemma diff_is_total_without_all_links_witness :
  fst (visit site_request "t1" damaged_world)
  = Success (make_result (strip site) ["https://site.com/a"] ["https://site.com/a"]
               "t1" (request_options [("url", JStr site)])).
Proof.
  apply (diff_is_total_without_all_links
           (urllib:=cpython_urllib) (soup:=anchor_scanner) (order:=hash_order)
           (net:=one_page site scenario_a_html)
           [("url", JStr site)] site (mkParseResult "https" "site.com" "" "" "" "")
           scenario_a_html ["https://site.com/a"] [("base_url", JStr site)]
           "t1" damaged_world);
    try (by vm_compute); try discriminate.
  by eexists.
Defined.



(** A request that is redirected: both URLs asked of the network are
    recorded, and the links of the page are resolved against the URL of
    the request, which line 163 passes on, not against the URL the page
    came from. *)
Remark redirected_request_is_recorded :
  requests_sent (snd (visit_moved site_request "t" empty_world))
    = ["https://www.site.com/"; site] /\
  fst (visit_moved site_request "t" empty_world) = Success (first_visit_record "t").
Proof. split; by vm_compute. Qed.

Lemma omitted_options_same_links_witness :
  (fst (visit site_request_with_options "t" empty_world)
     = fst (visit site_request "t" empty_world) /\
   forall r, fst (visit site_request "t" empty_world) <> Success r) \/
  (exists target_url all_links new_links,
     fst (visit site_request "t" empty_world)
       = Success (make_result target_url all_links new_links "t" (JDict [])) /\
     fst (visit site_request_with_options "t" empty_world)
       = Success (make_result target_url all_links new_links "t" default_options)).
Proof.
  apply (omitted_options_same_links
           (urllib:=cpython_urllib) (soup:=anchor_scanner) (order:=hash_order)
           (net:=one_page site scenario_a_html)
           [("url", JStr site)] [("url", JStr site); ("options", default_options)]
           [("internal_only", JBool true); ("remove_query", JBool true);
            ("remove_anchors", JBool true)] "t" empty_world); reflexivity.
Defined.

(** The claim C4 as the specification states it fails: the response to the
    request with the three options given echoes them, the response to the
    request without options echoes an empty dictionary. *)
Lemma explicit_default_options_change_the_response :
  fst (visit site_request_with_options "t" empty_world)
  <> fst (visit site_request "t" empty_world).
Proof. vm_compute. discriminate. Qed.

(** ** The history stays a list *)

Section HistoryInvariant.
Context {urllib : UrlLib} {soup : HtmlParser} {order : SetOrder} {net : Network}.

Lemma save_history_keeps_list record w :
  is_list (history_of w) = true ->
  is_list (history_of (snd (save_history record w))) = true.
Proof.
  destruct (history_of w) as [| | | |items|] eqn:Hh; try done.
  by rewrite (save_history_list _ _ _ Hh).
Qed.

(** No request turns a history that is a list into something else. *)
Lemma extract_links_keeps_list request_json now w :
  is_list (history_of w) = true ->
  is_list (history_of (snd (extract_links request_json now w))) = true.
Proof.
  intros Hlist. destruct request_json as [data|e]; [|done].
  destruct (extract_links_body_fetches data now w)
    as [[message ->] | [[e ->] | (kvs & url & -> & Hurl & Hbody)]]; [done..|].
  unfold extract_links. rewrite Hbody.
  destruct (fetch_and_extract_cases (strip url) (request_options kvs) now w)
    as [[text Hfetch] | [[cause ->] | [e ->]]]; [|done..].
  rewrite (fetch_and_extract_fetched _ _ _ _ _ Hfetch), extract_and_save_eq.
  destruct (extract_links_from_html _ _ _) as [all_links|e]; [|done].
  rewrite history_of_sent.
  destruct (py_iter (history_of w) ≫= find_previous (strip url))
    as [previous_data|e]; [|done].
  destruct (diff_links previous_data all_links) as [new_links|e]; [|done].
  by apply save_history_keeps_list.
Qed.

Lemma clear_history_keeps_list w :
  is_list (history_of (snd (clear_history w))) = true.
Proof. done. Qed.

End HistoryInvariant.

(** * Further properties of the code *)

(** ** The history store *)


(** X1. [save_history] never raises.  It returns [True] exactly when what
    [load_history] gives is a list; otherwise it returns [False] and the
    file is left as it was.  A file that is absent or cannot be read is
    replaced by a history of one record. *)
Theorem save_history_outcome record w :
  fst (save_history record w) = Ok (is_list (history_of w)) /\
  (is_list (history_of w) = false ->
   history_file (snd (save_history record w)) = history_file w) /\
  (history_file w = None \/ history_file w = Some Unreadable ->
   history_file (snd (save_history record w)) = Some (Stored (JList [record]))).
Proof.
  split_and!.
  - destruct (history_of w) as [| | | |items|] eqn:Hh;
      try (by rewrite save_history_not_list by (intros ?; congruence)).
    by rewrite (save_history_list _ _ _ Hh).
  - intros Hno. rewrite save_history_not_list; [done|].
    intros items Hh. by rewrite Hh in Hno.
  - intros Hfile. rewrite (save_history_list _ _ []); [done|].
    unfold history_of. by destruct Hfile as [-> | ->].
Qed.

Lemma save_history_outcome_witness :
  history_file (snd (save_history (JNum 7) (mkWorld true (Some (Stored (JDict []))) [])))
    = Some (Stored (JDict [])) /\
  history_file (snd (save_history (JNum 7) (mkWorld true (Some Unreadable) [])))
    = Some (Stored (JList [JNum 7])).
Proof.
  split.
  - apply (proj1 (proj2 (save_history_outcome (JNum 7)
                           (mkWorld true (Some (Stored (JDict []))) [])))).
    reflexivity.
  - apply (proj2 (proj2 (save_history_outcome (JNum 7)
                           (mkWorld true (Some Unreadable) [])))).
    by right.
Defined.

(** X2. Round trip: right after a record with a string under [base_url] is
    saved in a history that is a list, [get_previous_data] on that URL
    returns this record, whatever older records the history holds. *)
Theorem save_then_get_previous_data kvs url w :
  is_list (history_of w) = true ->
  dict_get "base_url" kvs = Some (JStr url) ->
  fst (get_previous_data url (snd (save_history (JDict kvs) w)))
  = Ok (Some (JDict kvs)).
Proof.
  intros Hlist Hbase.
  destruct (history_of w) as [| | | |items|] eqn:Hh; try done.
  rewrite (save_history_list _ _ _ Hh), get_previous_data_eq.
  cbn [fst snd]. unfold history_of. cbn [history_file take py_iter].
  simpl. rewrite Hbase. simpl. by rewrite String.eqb_refl.
Qed.

Lemma save_then_get_previous_data_witness :
  fst (get_previous_data site
         (snd (save_history (JDict [("base_url", JStr site); ("all_links", JList [])])
                 after_first_visit)))
  = Ok (Some (JDict [("base_url", JStr site); ("all_links", JList [])])).
Proof.
  apply (save_then_get_previous_data
           [("base_url", JStr site); ("all_links", JList [])] site after_first_visit);
    reflexivity.
Defined.

(** [clear_history] empties the history whatever the file held, also when
    there was no file; clearing twice is clearing once; and in the cleared
    world no URL has a previous record. *)
Lemma clear_history_empties w url :
  fst (load_history (snd (clear_history w))) = Ok (JList []) /\
  history_file (snd (clear_history w)) = None /\
  clear_history (snd (clear_history w)) = clear_history w /\
  fst (get_previous_data url (snd (clear_history w))) = Ok None.
Proof. by rewrite load_history_eq, get_previous_data_eq. Qed.

(** ** Runs of the extraction handler *)

Section HandlerRuns.
Context {urllib : UrlLib} {soup : HtmlParser} {order : SetOrder} {net : Network}.

Lemma extract_links_valid data target_url options now w :
  valid_request data target_url options ->
  extract_links (Ok data) now w =
    match fetch_and_extract target_url options now w with
    | (Ok r, w') => (r, w')
    | (Raise e, w') => (ServerError e, w')
    end.
Proof.
  intros (kvs & url & parsed_url & -> & Hurl & -> & -> & Hparse & Hscheme & Hnetloc).
  unfold extract_links.
  by rewrite (extract_links_body_valid _ _ _ _ _ Hurl Hparse Hscheme Hnetloc).
Qed.

(** The run of a valid request whose page was fetched. *)
Lemma extract_links_fetched data target_url options text now w :
  valid_request data target_url options ->
  fetched target_url text ->
  extract_links (Ok data) now w =
    match extract_links_from_html text target_url options with
    | Raise e => (ServerError e, sent target_url w)
    | Ok all_links =>
        match py_iter (history_of w) ≫= find_previous target_url with
        | Raise e => (ServerError e, with_data_dir (sent target_url w))
        | Ok previous_data =>
            match diff_links previous_data all_links with
            | Raise e => (ServerError e, with_data_dir (sent target_url w))
            | Ok new_links =>
                let result :=
                  make_result target_url all_links new_links now options in
                (Success result,
                 snd (save_history result (with_data_dir (sent target_url w))))
            end
        end
    end.
Proof.
  intros Hvalid Hfetch. rewrite (extract_links_valid _ _ _ _ _ Hvalid).
  rewrite (fetch_and_extract_fetched _ _ _ _ _ Hfetch), extract_and_save_eq.
  rewrite history_of_sent.
  destruct (extract_links_from_html _ _ _) as [all_links|e]; [|done].
  destruct (py_iter (history_of w) ≫= find_previous target_url)
    as [previous_data|e]; [|done].
  by destruct (diff_links previous_data all_links).
Qed.

(** Every response other than a validation or server error comes from a
    valid request that was sent to the network. *)
Lemma extract_links_cases request_json now w :
  (exists r, extract_links request_json now w = (r, w) /\ forall result, r <> Success result) \/
  (exists data target_url options,
     request_json = Ok data /\ valid_request data target_url options).
Proof.
  assert (forall r, extract_links request_json now w = (r, w) ->
            (forall result, r <> Success result) ->
            exists r, extract_links request_json now w = (r, w) /\
                      forall result, r <> Success result) as Hrejected by eauto.
  destruct request_json as [data|e]; [|left; by eapply Hrejected].
  destruct (extract_links_body_fetches data now w)
    as [[message Hm] | [[e He] | (kvs & url & -> & Hurl & _)]];
    [left; by eapply Hrejected..|].
  assert (extract_links (Ok (JDict kvs)) now w =
          match extract_links_body (Ok (JDict kvs)) now w with
          | (Ok r, w') => (r, w')
          | (Raise e, w') => (ServerError e, w')
          end) as Hrun by done.
  rewrite extract_links_body_dict, Hurl in Hrun. cbn [py_strip] in Hrun.
  destruct (urlparse (strip url)) as [parsed_url|e] eqn:Hparse;
    [|left; eapply Hrejected; [exact Hrun | done]].
  destruct (String.eqb (scheme parsed_url) "") eqn:Hscheme;
    [left; eapply Hrejected; [exact Hrun | done]|].
  destruct (String.eqb (netloc parsed_url) "") eqn:Hnetloc;
    [left; eapply Hrejected; [exact Hrun | done]|].
  right. exists (JDict kvs), (strip url), (request_options kvs).
  split; [done|]. exists kvs, url, parsed_url.
  apply String.eqb_neq in Hscheme, Hnetloc. by split_and!.
Qed.

End HandlerRuns.

(** ** What a request does to the world *)

Lemma extract_links_from_html_sorted
    {urllib : UrlLib} {soup : HtmlParser} {order : SetOrder}
    html base_url options links :
  extract_links_from_html html base_url options = Ok links ->
  NoDup links /\ StronglySorted String.le links.
Proof.
  intros Hrun. apply extract_links_from_html_Ok in Hrun
    as (collected & internal_only & _ & _ & Hlinks).
  destruct (truthy internal_only).
  - destruct Hlinks as (base & _ & ->). split; [|apply sorted_StronglySorted].
    apply sorted_NoDup, NoDup_filter, list_set_NoDup.
  - subst links. split; [|apply sorted_StronglySorted].
    apply sorted_NoDup, list_set_NoDup.
Qed.

Lemma filter_not_in_self (links : list string) :
  filter (fun link => link ∉ links) links = [].
Proof.
  enough (forall l, (forall x, x ∈ l -> x ∈ links) ->
            filter (fun link => link ∉ links) l = []) as Hall by by apply Hall.
  induction l as [|x l IH]; intros Hsub; [done|].
  rewrite filter_cons_False by (intros Hno; apply Hno, Hsub; by left).
  apply IH. intros y Hy. apply Hsub. by right.
Qed.

Lemma StronglySorted_sublist {A} (R : relation A) l1 l2 :
  sublist l1 l2 -> StronglySorted R l2 -> StronglySorted R l1.
Proof.
  induction 1 as [|x l1 l2 Hsub IH|x l1 l2 Hsub IH]; intros Hsorted.
  - constructor.
  - apply StronglySorted_inv in Hsorted as [Hsorted Hall].
    constructor; [by apply IH|]. rewrite Forall_forall in *.
    intros y Hy. eapply Hall, elem_of_sublist; eauto.
  - apply StronglySorted_inv in Hsorted as [Hsorted _]. by apply IH.
Qed.

Section RequestEffects.
Context {urllib : UrlLib} {soup : HtmlParser} {order : SetOrder} {net : Network}.

(** What a request that got a response with status 200 went through, and
    the world it left. *)
Lemma extract_links_Success_world data now w r w' :
  extract_links (Ok data) now w = (Success r, w') ->
  exists target_url options text all_links previous_data new_links,
    valid_request data target_url options /\
    fetched target_url text /\
    extract_links_from_html text target_url options = Ok all_links /\
    py_iter (history_of w) ≫= find_previous target_url = Ok previous_data /\
    diff_links previous_data all_links = Ok new_links /\
    r = make_result target_url all_links new_links now options /\
    w' = snd (save_history r (with_data_dir (sent target_url w))).
Proof.
  intros Hrun.
  destruct (extract_links_cases (Ok data) now w)
    as [(r' & Hr & Hno) | (data' & target_url & options & [= <-] & Hvalid)].
  { rewrite Hr in Hrun. injection Hrun as -> _. by destruct (Hno r). }
  destruct (fetch_and_extract_cases target_url options now w)
    as [[text Hfetch] | [[cause Hfailed] | [e Hfailed]]].
  - rewrite (extract_links_fetched _ _ _ _ _ _ Hvalid Hfetch) in Hrun.
    destruct (extract_links_from_html _ _ _) as [all_links|e] eqn:Hextract; [|done].
    destruct (py_iter (history_of w) ≫= find_previous target_url)
      as [previous_data|e] eqn:Hprev; [|done].
    destruct (diff_links previous_data all_links) as [new_links|e] eqn:Hdiff; [|done].
    injection Hrun as <- <-.
    by exists target_url, options, text, all_links, previous_data, new_links.
  - by rewrite (extract_links_valid _ _ _ _ _ Hvalid), Hfailed in Hrun.
  - by rewrite (extract_links_valid _ _ _ _ _ Hvalid), Hfailed in Hrun.
Qed.

(** X3. The history file is written only by a request that is answered
    with status 200: after any other response (400 or 500) the file is
    what it was. *)
Theorem history_written_only_on_success request_json now w :
  (forall result, fst (extract_links request_json now w) <> Success result) ->
  history_file (snd (extract_links request_json now w)) = history_file w.
Proof.
  intros Hno.
  destruct (extract_links_cases request_json now w)
    as [(r' & -> & _) | (data & target_url & options & -> & Hvalid)]; [done|].
  destruct (fetch_and_extract_cases target_url options now w)
    as [[text Hfetch] | [[cause Hfailed] | [e Hfailed]]].
  - rewrite (extract_links_fetched _ _ _ _ _ _ Hvalid Hfetch) in *.
    destruct (extract_links_from_html _ _ _) as [all_links|e]; [|done].
    destruct (py_iter (history_of w) ≫= find_previous target_url)
      as [previous_data|e]; [|done].
    destruct (diff_links previous_data all_links) as [new_links|e]; [|done].
    by destruct (Hno (make_result target_url all_links new_links now options)).
  - by rewrite (extract_links_valid _ _ _ _ _ Hvalid), Hfailed.
  - by rewrite (extract_links_valid _ _ _ _ _ Hvalid), Hfailed.
Qed.


(** X5. In every response with status 200, [total_count] and [new_count]
    are the lengths of [all_links] and [new_links], [new_count] is at most
    [total_count], and [new_links], like [all_links], has no duplicate and
    is sorted ascending. *)
Theorem response_counts_and_order data now w r w' :
  extract_links (Ok data) now w = (Success r, w') ->
  exists all_links new_links,
    field "all_links" r = Some (JList (JStr <$> all_links)) /\
    field "new_links" r = Some (JList (JStr <$> new_links)) /\
    field "total_count" r = Some (JNum (Z.of_nat (length all_links))) /\
    field "new_count" r = Some (JNum (Z.of_nat (length new_links))) /\
    length new_links <= length all_links /\
    NoDup new_links /\ StronglySorted String.le new_links.
Proof.
  intros Hrun. apply extract_links_Success_world in Hrun
    as (target_url & options & text & all_links & previous_data & new_links
        & _ & _ & Hextract & _ & Hdiff & -> & _).
  apply extract_links_from_html_sorted in Hextract as [Hnodup Hsorted].
  apply diff_links_sublist in Hdiff.
  exists all_links, new_links. split_and!; try done.
  - by apply sublist_length.
  - by eapply sublist_NoDup.
  - by eapply StronglySorted_sublist.
Qed.

(** X6. When the history is a list, the record of a response with status
    200 is the first entry of the history [get_history] returns next, and
    that history has at most 50 entries. *)
Theorem successful_extraction_is_recorded data now w r w' :
  is_list (history_of w) = true ->
  extract_links (Ok data) now w = (Success r, w') ->
  exists older,
    fst (get_history w') = Success (JList (r :: older)) /\
    length (r :: older) <= 50.
Proof.
  intros Hlist Hrun. apply extract_links_Success_world in Hrun
    as (target_url & options & text & all_links & previous_data & new_links
        & _ & _ & _ & _ & _ & -> & ->).
  destruct (history_of w) as [| | | |items|] eqn:Hh; try done.
  rewrite (save_history_list _ _ items) by done. cbn [snd].
  exists (take 49 items). split; [done|].
  cbn [length]. rewrite length_take. lia.
Qed.

(** X7. A history that cannot be saved does not change the response: when
    what the file holds is not a list, a request can still be answered
    with status 200, and the file is then left untouched. *)
Theorem unsaved_extraction_still_succeeds data now w r w' :
  is_list (history_of w) = false ->
  extract_links (Ok data) now w = (Success r, w') ->
  history_file w' = history_file w.
Proof.
  intros Hlist Hrun. apply extract_links_Success_world in Hrun
    as (target_url & options & text & all_links & previous_data & new_links
        & _ & _ & _ & _ & _ & -> & ->).
  rewrite save_history_not_list; [done|].
  intros items Hh. change (history_of w = JList items) in Hh.
  by rewrite Hh in Hlist.
Qed.

(** X8. Asking again for a page that has not changed: when the history is
    a list and a request is answered with status 200, the same request
    repeated right after it is answered with status 200, the same
    [all_links] and no new link. *)
Theorem repeated_extraction_has_no_new_links data now now' w r w' :
  is_list (history_of w) = true ->
  extract_links (Ok data) now w = (Success r, w') ->
  exists target_url all_links new_links options,
    r = make_result target_url all_links new_links now options /\
    fst (extract_links (Ok data) now' w')
    = Success (make_result target_url all_links [] now' options).
Proof.
  intros Hlist Hrun. apply extract_links_Success_world in Hrun
    as (target_url & options & text & all_links & previous_data & new_links
        & Hvalid & Hfetch & Hextract & _ & _ & -> & ->).
  exists target_url, all_links, new_links, options. split; [done|].
  destruct (history_of w) as [| | | |items|] eqn:Hh; try done.
  rewrite (save_history_list _ _ items) by done. cbn [snd].
  rewrite (extract_links_fetched _ _ _ _ _ _ Hvalid Hfetch), Hextract.
  unfold history_of at 1. cbn [history_file take py_iter mbind result_bind].
  cbn [find_previous make_result py_get dict_get default from_option]. simpl.
  rewrite String.eqb_refl. cbn [mbind result_bind].
  rewrite (diff_links_previous _ all_links) by done.
  by rewrite filter_not_in_self.
Qed.

(** X9. The diff needs every item it meets in the history to be a
    dictionary: when an item that is not one comes before any record for
    the URL, a valid request whose page was fetched and extracted is
    answered with status 500, and nothing is saved. *)
Theorem non_dictionary_item_fails_the_request
    data target_url options text all_links before bad after now w :
  valid_request data target_url options ->
  fetched target_url text ->
  extract_links_from_html text target_url options = Ok all_links ->
  history_of w = JList (before ++ bad :: after) ->
  Forall (fun item => is_dict item = true /\ record_for target_url item = false) before ->
  is_dict bad = false ->
  extract_links (Ok data) now w
  = (ServerError AttributeError, with_data_dir (sent target_url w)).
Proof.
  intros Hvalid Hfetch Hextract Hh Hbefore Hbad.
  rewrite (extract_links_fetched _ _ _ _ _ _ Hvalid Hfetch), Hextract, Hh.
  cbn [py_iter mbind result_bind].
  assert (find_previous target_url (before ++ bad :: after) = Raise AttributeError)
    as ->; [|done].
  clear Hh. induction Hbefore as [|item before [Hdict Hrec] _ IH]; simpl.
  - by destruct bad.
  - destruct item as [| | | | |kvs]; try done.
    unfold record_for in Hrec. simpl in *. by rewrite Hrec.
Qed.

(** X10. After [clear_history], the next request answered with status 200
    reports every link as new, and its record is then the whole history. *)
Theorem after_clear_every_link_is_new data now w r w' :
  extract_links (Ok data) now (snd (clear_history w)) = (Success r, w') ->
  (exists target_url all_links options,
     r = make_result target_url all_links all_links now options) /\
  fst (get_history w') = Success (JList [r]).
Proof.
  intros Hrun. apply extract_links_Success_world in Hrun
    as (target_url & options & text & all_links & previous_data & new_links
        & _ & _ & _ & Hprev & Hdiff & -> & ->).
  injection Hprev as <-. injection Hdiff as <-. split; [|done].
  by exists target_url, all_links, options.
Qed.

(** The anchor loop with options that are not a dictionary: it raises at
    the first anchor it does not skip, and collects nothing otherwise. *)
Lemma collect_links_not_dict hrefs base_url options :
  is_dict options = false ->
  collect_links hrefs base_url options = Raise AttributeError \/
  collect_links hrefs base_url options = Ok [].
Proof.
  intros Hno. induction hrefs as [|href rest IH]; simpl; [by right|].
  destruct (_ || _); [done|]. left. by destruct options.
Qed.

(** X11. Options that are neither absent, [null] nor a dictionary make the
    extraction fail: the request is answered with status 500 after the
    page was fetched, whatever the page holds, and nothing is saved. *)
Theorem options_must_be_a_dictionary data target_url options text now w :
  valid_request data target_url options ->
  fetched target_url text ->
  options <> JNull ->
  is_dict options = false ->
  extract_links (Ok data) now w = (ServerError AttributeError, sent target_url w).
Proof.
  intros Hvalid Hfetch Hnull Hno.
  rewrite (extract_links_fetched _ _ _ _ _ _ Hvalid Hfetch).
  assert (extract_links_from_html text target_url options = Raise AttributeError)
    as ->; [|done].
  unfold extract_links_from_html.
  assert (options_or_default options = options) as -> by by destruct options.
  destruct (collect_links_not_dict (find_all_a_href text) target_url options Hno)
    as [-> | ->]; [done|].
  by destruct options.
Qed.

End RequestEffects.

(** ** The history the handlers keep *)

Lemma make_result_is_record target_url all_links new_links now options :
  is_record (make_result target_url all_links new_links now options).
Proof. by exists target_url, all_links. Qed.

Lemma good_history_same_file w w' :
  history_file w' = history_file w -> good_history w -> good_history w'.
Proof. unfold good_history, history_of. by intros ->. Qed.

Lemma save_history_good record w :
  is_record record -> good_history w -> good_history (snd (save_history record w)).
Proof.
  intros Hrecord (items & Hh & Hlen & Hitems).
  rewrite (save_history_list _ _ _ Hh). exists (take 50 (record :: items)).
  split_and!; [done| |].
  - rewrite length_take. lia.
  - apply Forall_take. by constructor.
Qed.

(** The loop over a history of records ends without an exception, on a
    record or on nothing. *)
Lemma find_previous_records url items :
  Forall is_record items ->
  exists previous_data,
    find_previous url items = Ok previous_data /\
    from_option is_record True previous_data.
Proof.
  induction 1 as [|item items Hitem _ (previous_data & IH & Hprev)]; simpl.
  - by exists None.
  - pose proof Hitem as (base_url & links & Hbase & _).
    destruct item as [| | | | |kvs]; try done. simpl in *. rewrite Hbase. simpl.
    destruct (String.eqb base_url url); [by exists (Some (JDict kvs))|eauto].
Qed.

(** The diff against a record, or against nothing, does not raise. *)
Lemma diff_links_record previous_data all_links :
  from_option is_record True previous_data ->
  exists new_links, diff_links previous_data all_links = Ok new_links.
Proof.
  destruct previous_data as [previous|]; [|by eexists].
  intros (base_url & links & Hbase & Hlinks).
  destruct previous as [| | | | |kvs]; try done.
  exists (filter (fun link => link ∉ links) all_links).
  apply diff_links_previous.
  - simpl in Hbase. by destruct kvs.
  - simpl in *. by rewrite Hlinks.
Qed.

Section HistoryKept.
Context {urllib : UrlLib} {soup : HtmlParser} {order : SetOrder}.

(** What a request leaves in the history file: what was there, or what
    [save_history] makes of it with the record of the response. *)
Lemma extract_links_history {net : Network} request_json now w :
  history_file (snd (extract_links request_json now w)) = history_file w \/
  exists record w0,
    is_record record /\ history_file w0 = history_file w /\
    snd (extract_links request_json now w) = snd (save_history record w0).
Proof.
  destruct (extract_links_cases request_json now w)
    as [(r' & -> & _) | (data & target_url & options & -> & Hvalid)]; [by left|].
  destruct (fetch_and_extract_cases target_url options now w)
    as [[text Hfetch] | [[cause Hfailed] | [e Hfailed]]].
  - rewrite (extract_links_fetched _ _ _ _ _ _ Hvalid Hfetch).
    destruct (extract_links_from_html _ _ _) as [all_links|e]; [|by left].
    destruct (py_iter (history_of w) ≫= find_previous target_url)
      as [previous_data|e]; [|by left].
    destruct (diff_links previous_data all_links) as [new_links|e]; [|by left].
    right. eexists _, _. split_and!; [apply make_result_is_record| |done]. done.
  - left. by rewrite (extract_links_valid _ _ _ _ _ Hvalid), Hfailed.
  - left. by rewrite (extract_links_valid _ _ _ _ _ Hvalid), Hfailed.
Qed.

Lemma handle_good req w : good_history w -> good_history (snd (handle req w)).
Proof.
  intros Hgood. destruct req as [net request_json now| |]; simpl.
  - destruct (extract_links_history request_json now w)
      as [Hsame | (record & w0 & Hrecord & Hsame & ->)].
    + by eapply good_history_same_file.
    + apply save_history_good; [done|]. by eapply good_history_same_file.
  - unfold get_history. rewrite load_history_eq. by eapply good_history_same_file.
  - exists []. split_and!; [done|simpl; lia|constructor].
Qed.

(** X12. The handlers keep the history well formed: from a world whose
    history is a list of at most 50 records (such as the one with no
    file), every sequence of calls of the API, whatever the requests and
    whatever the network answers, leads to a world whose history is again
    a list of at most 50 records. *)
Theorem history_stays_good reqs w :
  good_history w -> good_history (run reqs w).
Proof.
  revert w. induction reqs as [|req reqs IH]; intros w Hgood; [done|].
  apply IH. by apply handle_good.
Qed.

(** X13. With such a history the diff cannot fail a request: a valid
    request whose page was fetched and whose links were extracted is
    answered with status 200. *)
Theorem good_history_never_fails_the_diff {net : Network}
    data target_url options text all_links now w :
  good_history w ->
  valid_request data target_url options ->
  fetched target_url text ->
  extract_links_from_html text target_url options = Ok all_links ->
  exists new_links,
    fst (extract_links (Ok data) now w)
    = Success (make_result target_url all_links new_links now options).
Proof.
  intros (items & Hh & _ & Hitems) Hvalid Hfetch Hextract.
  rewrite (extract_links_fetched _ _ _ _ _ _ Hvalid Hfetch), Hextract, Hh.
  cbn [py_iter mbind result_bind].
  destruct (find_previous_records target_url items Hitems)
    as (previous_data & -> & Hprev).
  destruct (diff_links_record previous_data all_links Hprev) as [new_links ->].
  by exists new_links.
Qed.

End HistoryKept.

(** ** Stripping the URL of a request *)

Lemma rstrip_idempotent s : rstrip (rstrip s) = rstrip s.
Proof.
  induction s as [|c s IH]; [done|]. simpl.
  destruct (rstrip s) as [|c' r] eqn:Hr.
  - destruct (isspace c) eqn:Hc; simpl; [done|]. by rewrite Hc.
  - simpl in *. by rewrite IH.
Qed.

(** Stripping on the right keeps a first character that is not a blank. *)
Lemma lstrip_rstrip s : lstrip s = s -> lstrip (rstrip s) = rstrip s.
Proof.
  destruct s as [|c s]; [done|]. simpl.
  destruct (isspace c) eqn:Hc.
  - intros Hs. assert (String.length (lstrip s) <= String.length s) as Hlen.
    { clear. induction s as [|c s IH]; simpl; [lia|].
      destruct (isspace c); simpl; lia. }
    rewrite Hs in Hlen. simpl in Hlen. lia.
  - intros _. destruct (rstrip s); simpl; by rewrite Hc.
Qed.

Lemma lstrip_idempotent s : lstrip (lstrip s) = lstrip s.
Proof.
  induction s as [|c s IH]; [done|]. simpl.
  destruct (isspace c) eqn:Hc; [done|]. simpl. by rewrite Hc.
Qed.

Lemma strip_idempotent s : strip (strip s) = strip s.
Proof.
  unfold strip. rewrite lstrip_rstrip by apply lstrip_idempotent.
  apply rstrip_idempotent.
Qed.

Section Stripping.
Context {urllib : UrlLib} {soup : HtmlParser} {order : SetOrder} {net : Network}.

(** X14. Blanks around the [url] of a request do not matter: the request
    and the same request with the [url] already stripped get the same
    response and leave the same world, so both share one history key. *)
Theorem surrounding_blanks_are_ignored kvs kvs' url now w :
  dict_get "url" kvs = Some (JStr url) ->
  dict_get "url" kvs' = Some (JStr (strip url)) ->
  dict_get "options" kvs' = dict_get "options" kvs ->
  extract_links (Ok (JDict kvs')) now w = extract_links (Ok (JDict kvs)) now w.
Proof.
  intros Hurl Hurl' Hoptions. unfold extract_links.
  rewrite (extract_links_body_url _ _ _ _ Hurl), (extract_links_body_url _ _ _ _ Hurl').
  unfold request_options. by rewrite strip_idempotent, Hoptions.
Qed.

End Stripping.

(** ** The filter and the sort *)

(** Filtering a list and sorting it can be done in either order. *)
Lemma sorted_filter (P : string -> Prop) `{!forall x, Decision (P x)} l :
  sorted (filter P l) = filter P (sorted l).
Proof.
  apply (StronglySorted_unique String.le).
  - apply sorted_StronglySorted.
  - eapply StronglySorted_sublist; [apply sublist_filter|apply sorted_StronglySorted].
  - by rewrite !sorted_Permutation.
Qed.

Section FilterAndSort.
Context {urllib : UrlLib} {soup : HtmlParser} {order : SetOrder}.

(** The anchor loop reads two options only. *)
Lemma collect_links_ext hrefs base_url options options' :
  py_get options' "remove_query" (JBool true)
    = py_get options "remove_query" (JBool true) ->
  py_get options' "remove_anchors" (JBool true)
    = py_get options "remove_anchors" (JBool true) ->
  collect_links hrefs base_url options' = collect_links hrefs base_url options.
Proof.
  intros Hrq Hra. induction hrefs as [|href rest IH]; [done|].
  cbn [collect_links]. by rewrite IH, Hrq, Hra.
Qed.

(** X15. The internal links are the links of all hosts, filtered: with
    the other options equal, the list returned with [internal_only] true
    is the list returned with [internal_only] false from which the links
    of other network locations are removed, in the same order. *)
Theorem internal_links_are_filtered_links
    html base_url kvs off on all_hosts internal :
  truthy off = false ->
  truthy on = true ->
  extract_links_from_html html base_url (JDict (("internal_only", off) :: kvs))
    = Ok all_hosts ->
  extract_links_from_html html base_url (JDict (("internal_only", on) :: kvs))
    = Ok internal ->
  exists base,
    urlparse base_url = Ok base /\
    internal = filter (fun link => same_domain (netloc base) link = true) all_hosts /\
    sublist internal all_hosts.
Proof.
  unfold extract_links_from_html. cbn [options_or_default].
  rewrite (collect_links_ext _ _ (JDict (("internal_only", off) :: kvs))
             (JDict (("internal_only", on) :: kvs))) by done.
  intros Hoff Hon Hall Hint.
  destruct (collect_links _ _ _) as [collected|e]; [|done].
  simpl in Hall, Hint. rewrite Hoff in Hall. rewrite Hon in Hint.
  injection Hall as <-.
  destruct (urlparse base_url) as [base|e]; [|done].
  injection Hint as <-. exists base. split; [done|].
  rewrite sorted_filter. split; [done|apply sublist_filter].
Qed.

(** Query and fragment do not tell links apart when both are removed: two
    hrefs whose resolved URLs parse to the same scheme,
    network location, path and parameters have the same normalised link. *)
Lemma query_and_fragment_collapse
    href href' base_url full full' parsed parsed' remove_query remove_anchors :
  urljoin base_url href = Ok full -> urlparse full = Ok parsed ->
  urljoin base_url href' = Ok full' -> urlparse full' = Ok parsed' ->
  scheme parsed' = scheme parsed -> netloc parsed' = netloc parsed ->
  path parsed' = path parsed -> params parsed' = params parsed ->
  truthy remove_query = true -> truthy remove_anchors = true ->
  normalize_url href' base_url remove_query remove_anchors
  = normalize_url href base_url remove_query remove_anchors.
Proof.
  intros Hfull Hparsed Hfull' Hparsed' Hs Hn Hp Hq Hrq Hra.
  unfold normalize_url.
  rewrite Hfull, Hfull'. simpl. rewrite Hparsed, Hparsed'. simpl.
  rewrite Hrq, Hra. unfold replace_fragment, replace_query. simpl.
  by rewrite Hs, Hn, Hp, Hq.
Qed.

End FilterAndSort.

(** ** The port of the server *)

(** X16. The port: a command-line port that [int] accepts is used; one
    that it refuses gives the warning and leaves the port of [PORT], or
    5000 when the variable is not set; and a [PORT] that [int] refuses
    stops the start with [ValueError], whatever the command line. *)
Theorem port_selection {parser : IntParser} environ_port argv :
  (forall text,
     environ_port = Some text -> py_int text = None ->
     select_port environ_port argv = Raise ValueError) /\
  (forall program arg rest n,
     argv = program :: arg :: rest -> py_int arg = Some n ->
     (forall text, environ_port = Some text -> py_int text <> None) ->
     select_port environ_port argv = Ok (n, false)) /\
  (forall program arg rest,
     argv = program :: arg :: rest -> py_int arg = None ->
     (environ_port = None -> select_port environ_port argv = Ok (5000%Z, true)) /\
     (forall text n,
        environ_port = Some text -> py_int text = Some n ->
        select_port environ_port argv = Ok (n, true))).
Proof.
  unfold select_port. split_and!.
  - by intros text -> ->.
  - intros program arg rest n -> Harg Henv.
    destruct environ_port as [text|]; simpl; [|by rewrite Harg].
    destruct (py_int text) eqn:Htext; simpl; [by rewrite Harg|].
    by destruct (Henv text).
  - intros program arg rest -> Harg. split.
    + intros ->. simpl. by rewrite Harg.
    + intros text n -> ->. simpl. by rewrite Harg.
Qed.

(** ** Normalised links under the model of [urllib.parse] *)

(** The character [c] does not occur in [s]. *)
Abbreviation free c s := (Urllib.has_char c s = false).

Lemma has_char_app c a b :
  Urllib.has_char c (a +:+ b) = Urllib.has_char c a || Urllib.has_char c b.
Proof.
  induction a as [|c' a IH]; [done|].
  change (String c' a +:+ b) with (String c' (a +:+ b)). simpl.
  by rewrite IH, orb_assoc.
Qed.

Lemma free_split_once d c s before after :
  Urllib.split_once d s = Some (before, after) ->
  free c s -> free c before /\ free c after.
Proof.
  revert before. induction s as [|c' s IH]; intros before; simpl; [done|].
  destruct (Ascii.eqb d c').
  - intros [= <- <-] [_ Hs]%orb_false_iff. done.
  - destruct (Urllib.split_once d s) as [[b a]|]; [|done].
    intros [= <- <-] [Hc Hs]%orb_false_iff.
    destruct (IH b eq_refl Hs). simpl. by rewrite Hc.
Qed.

Lemma free_split_once_before c s before after :
  Urllib.split_once c s = Some (before, after) -> free c before.
Proof.
  revert before. induction s as [|c' s IH]; intros before; simpl; [done|].
  destruct (Ascii.eqb c c') eqn:Hc.
  - by intros [= <- <-].
  - destruct (Urllib.split_once c s) as [[b a]|]; [|done].
    intros [= <- <-]. simpl. rewrite Hc. by apply IH.
Qed.

Lemma free_split_once_None c s : Urllib.split_once c s = None -> free c s.
Proof.
  induction s as [|c' s IH]; simpl; [done|].
  destruct (Ascii.eqb c c'); [done|].
  destruct (Urllib.split_once c s) as [[b a]|]; [done|]. intros _. by apply IH.
Qed.

Lemma free_substring c n m s : free c s -> free c (String.substring n m s).
Proof.
  revert n m. induction s as [|c' s IH]; intros n m Hs.
  - by destruct n, m.
  - apply orb_false_iff in Hs as [Hc Hs].
    destruct n as [|n]; [destruct m as [|m]|]; simpl; [done| |by apply IH].
    rewrite Hc. by apply IH.
Qed.

Lemma free_filter_chars c p s : free c s -> free c (Urllib.filter_chars p s).
Proof.
  induction s as [|c' s IH]; [done|]. intros [Hc Hs]%orb_false_iff. simpl.
  destruct (p c'); simpl; [rewrite Hc|]; by apply IH.
Qed.

Lemma free_splitnetloc c s domain rest :
  Urllib.splitnetloc s = (domain, rest) ->
  (Urllib.is_delim c = true -> free c domain) /\
  (free c s -> free c domain /\ free c rest).
Proof.
  revert domain. induction s as [|c' s IH]; intros domain; simpl.
  - by intros [= <- <-].
  - destruct (Urllib.is_delim c') eqn:Hd; [by intros [= <- <-]|].
    destruct (Urllib.splitnetloc s) as [d r]. intros [= <- <-].
    destruct (IH d eq_refl) as [IHd IHs]. split.
    + intros Hc. simpl. rewrite (IHd Hc), orb_false_r.
      destruct (Ascii.eqb_spec c c') as [->|]; [congruence|done].
    + intros [Hc Hs]%orb_false_iff. destruct (IHs Hs). simpl. by rewrite Hc.
Qed.

(** A lowered scheme holds neither [#] nor [?]. *)
Lemma free_lower_scheme c s :
  c = "#"%char \/ c = "?"%char ->
  Urllib.all_chars (fun c => Urllib.has_char c Urllib.scheme_chars) s = true ->
  free c (Urllib.lower s).
Proof.
  intros Hc. induction s as [|c' s IH]; [done|]. simpl.
  intros [Hc' Hs]%andb_true_iff. rewrite (IH Hs), orb_false_r. clear IH Hs.
  destruct Hc as [-> | ->];
    destruct c' as [[] [] [] [] [] [] [] []]; by vm_compute in Hc' |- *.
Qed.

(** What [urlsplit] leaves in each component. *)
Lemma urlsplit_free c url sp :
  c = "#"%char \/ c = "?"%char ->
  Urllib.urlsplit url "" = Ok sp ->
  free c (Urllib.s_scheme sp) /\ free c (Urllib.s_netloc sp) /\
  free c (Urllib.s_path sp) /\ free "#" (Urllib.s_query sp).
Proof.
  intros Hc. unfold Urllib.urlsplit.
  change (Urllib.remove_unsafe "") with "".
  generalize (Urllib.remove_unsafe url). clear url. intros url.
  (* the scheme *)
  lazymatch goal with
  | |- (let '(scheme, rest) := ?split in _) = _ -> _ => set (found := split)
  end.
  assert (free c (fst found)) as Hscheme.
  { subst found. destruct (Urllib.split_once ":" url) as [[before after]|]; [|done].
    destruct (negb (String.eqb before "")) ; [|done]. simpl.
    destruct (Urllib.all_chars _ before) eqn:Hok; [|done].
    by apply free_lower_scheme. }
  destruct found as [scheme rest]. clear url. cbn [fst] in Hscheme.
  (* the network location *)
  lazymatch goal with |- (?located ≫= _) = _ -> _ => set (found := located) end.
  assert (forall netloc tail, found = Ok (netloc, tail) -> free c netloc) as Hnetloc.
  { subst found. intros netloc tail. destruct (String.prefix "//" rest); [|by intros [= <- _]].
    destruct (Urllib.splitnetloc _) as [netloc' tail'] eqn:Hsplit.
    destruct (_ || _); [done|]. intros [= <- _].
    apply (free_splitnetloc c) in Hsplit as [Hdelim _]. apply Hdelim.
    by destruct Hc as [-> | ->]. }
  destruct found as [[netloc tail]|e]; [|done].
  specialize (Hnetloc netloc tail eq_refl). cbn [mbind result_bind].
  (* the fragment, then the query *)
  assert (exists before fragment,
            match Urllib.split_once "#" tail with
            | Some (before, after) => (before, after)
            | None => (tail, "")
            end = (before, fragment) /\ free "#" before)
    as (before & fragment & -> & Hbefore).
  { destruct (Urllib.split_once "#" tail) as [[before fragment]|] eqn:Hfragment.
    - eexists _, _. split; [done|]. by eapply free_split_once_before.
    - eexists _, _. split; [done|]. by apply free_split_once_None. }
  destruct (Urllib.split_once "?" before) as [[path query]|] eqn:Hquery;
    intros [= <-]; cbn.
  - destruct (free_split_once _ "#" _ _ _ Hquery Hbefore) as [Hpath Hq].
    split_and!; try done.
    destruct Hc as [-> | ->]; [done|]. by eapply free_split_once_before.
  - split_and!; try done.
    destruct Hc as [-> | ->]; [done|]. by apply free_split_once_None.
Qed.

Lemma splitparams_free c url :
  free c url ->
  free c (fst (Urllib.splitparams url)) /\ free c (snd (Urllib.splitparams url)).
Proof.
  intros Hurl. unfold Urllib.splitparams.
  destruct (Urllib.split_once ";" _) as [[before after]|] eqn:Hsplit.
  - apply (free_split_once _ c) in Hsplit as [Hb Ha]; [|by apply free_substring].
    cbn [fst snd]. rewrite has_char_app, Hb, (free_substring c _ _ _ Hurl). done.
  - destruct (Urllib.rfind_slash url); cbn [fst snd]; [done|].
    by rewrite (free_substring c _ _ _ Hurl).
Qed.

(** What [urlparse] leaves in each component. *)
Lemma urlparse_free c url parsed :
  c = "#"%char \/ c = "?"%char ->
  Urllib.urlparse url "" = Ok parsed ->
  free c (scheme parsed) /\ free c (netloc parsed) /\ free c (path parsed) /\
  free c (params parsed) /\ free "#" (query parsed).
Proof.
  intros Hc. unfold Urllib.urlparse.
  destruct (Urllib.urlsplit url "") as [sp|e] eqn:Hsplit; [|done].
  apply (urlsplit_free c) in Hsplit as (Hs & Hn & Hp & Hq); [|done].
  cbn [mbind result_bind]. destruct (_ && _).
  - destruct (splitparams_free c _ Hp) as [Hpath Hparams].
    destruct (Urllib.splitparams _). by intros [= <-].
  - by intros [= <-].
Qed.

(** A character that none of the components holds, and that is not one of
    the separators put between them, is not in the URL put together. *)
Lemma urlunparse_free c parsed :
  c = "#"%char \/ c = "?"%char ->
  free c (scheme parsed) -> free c (netloc parsed) -> free c (path parsed) ->
  free c (params parsed) ->
  query parsed = "" \/ (c = "#"%char /\ free c (query parsed)) ->
  fragment parsed = "" ->
  free c (Urllib.urlunparse parsed).
Proof.
  intros Hc Hs Hn Hp Hq Hquery Hfragment.
  unfold Urllib.urlunparse, Urllib.urlunsplit. rewrite Hfragment.
  set (url := if negb (String.eqb (params parsed) "")
              then path parsed +:+ ";" +:+ params parsed else path parsed).
  assert (free c url) as Hurl.
  { subst url. destruct (negb (String.eqb (params parsed) "")); [|done].
    rewrite !has_char_app, Hp, Hq.
    by destruct Hc as [-> | ->]. }
  clearbody url.
  assert (forall text, free c text ->
            free c (if negb (String.eqb (query parsed) "")
                    then text +:+ "?" +:+ query parsed else text)) as Hwith_query.
  { intros text Htext. destruct Hquery as [-> | [-> Hfree]]; [done|].
    destruct (negb (String.eqb (query parsed) "")); [|done].
    by rewrite !has_char_app, Htext, Hfree. }
  cbn [String.eqb negb]. apply Hwith_query.
  assert (forall text, free c text ->
            free c (if negb (String.eqb (scheme parsed) "")
                    then scheme parsed +:+ ":" +:+ text else text)) as Hwith_scheme.
  { intros text Htext. destruct (negb (String.eqb (scheme parsed) "")); [|done].
    rewrite !has_char_app, Hs, Htext. by destruct Hc as [-> | ->]. }
  apply Hwith_scheme.
  destruct (_ || _); [|done].
  rewrite !has_char_app, Hn.
  destruct (_ && _); rewrite ?has_char_app, Hurl; by destruct Hc as [-> | ->].
Qed.

(** X17. Under the model of [urllib.parse], a normalised link holds no
    [#] when fragments are removed, and neither [#] nor [?] when queries
    are removed as well (the default options). *)
Theorem normalized_link_is_stripped
    href base_url remove_query remove_anchors link :
  normalize_url (urllib:=cpython_urllib) href base_url remove_query remove_anchors
    = Some link ->
  truthy remove_anchors = true ->
  free "#" link /\ (truthy remove_query = true -> free "?" link).
Proof.
  unfold normalize_url. cbn [urljoin urlparse geturl cpython_urllib].
  destruct (Urllib.urljoin base_url href) as [full_url|e]; [|done].
  cbn [mbind result_bind].
  destruct (Urllib.urlparse full_url "") as [parsed|e] eqn:Hparse; [|done].
  cbn [mbind result_bind fmap result_fmap try_except].
  intros [= <-] Hra. rewrite Hra.
  pose proof (urlparse_free "#" _ _ (or_introl eq_refl) Hparse)
    as (Hs & Hn & Hp & Hq & Hquery).
  pose proof (urlparse_free "?" _ _ (or_intror eq_refl) Hparse)
    as (Hs' & Hn' & Hp' & Hq' & _).
  split.
  - destruct (truthy remove_query); apply urlunparse_free; try done;
      solve [by left | by right].
  - intros ->. apply urlunparse_free; try done; solve [by left | by right].
Qed.

(** ** What the result depends on *)

Section Dependence.
Context {urllib : UrlLib} {order : SetOrder}.

(** X18. Only the set of hrefs of a page matters: two pages (read by any
    two parsers) whose anchors carry the same hrefs, in whatever order and
    however often, give the same list of links. *)
Theorem same_hrefs_same_links (soup soup' : HtmlParser) html html' base_url options :
  is_dict (options_or_default options) = true ->
  (forall href,
     href ∈ find_all_a_href (HtmlParser:=soup) html <->
     href ∈ find_all_a_href (HtmlParser:=soup') html') ->
  extract_links_from_html (soup:=soup') html' base_url options
  = extract_links_from_html (soup:=soup) html base_url options.
Proof.
  intros Hdict Hsame. unfold extract_links_from_html.
  destruct (options_or_default options) as [| | | | |kvs]; try done.
  destruct (collect_links_dict (find_all_a_href (HtmlParser:=soup) html) base_url kvs)
    as [collected Hcollected].
  destruct (collect_links_dict (find_all_a_href (HtmlParser:=soup') html') base_url kvs)
    as [collected' Hcollected'].
  rewrite Hcollected, Hcollected'. cbn [mbind result_bind].
  assert (list_set collected' ≡ₚ list_set collected) as Hperm.
  { apply NoDup_Permutation; try apply list_set_NoDup.
    intros link. rewrite !list_set_elem_of.
    rewrite (collect_links_elem_of _ _ _ _ link Hcollected),
      (collect_links_elem_of _ _ _ _ link Hcollected').
    split; intros (href & rq & ra & Hin & Hrest); exists href, rq, ra;
      (split; [by apply Hsame|done]). }
  destruct (py_get (JDict kvs) "internal_only" (JBool true)) as [internal_only|e];
    [|done].
  cbn [mbind result_bind]. destruct (truthy internal_only).
  - destruct (urlparse base_url) as [base|e]; [|done]. cbn [mbind result_bind].
    f_equal. apply sorted_canonical. by rewrite Hperm.
  - cbn [mbind result_bind]. f_equal. by apply sorted_canonical.
Qed.

(** X19. The history has no say in what is extracted: two responses with
    status 200 to the same request, in any two worlds and at any two
    times, carry the same [base_url], [all_links], [total_count] and
    [options]. *)
Theorem all_links_do_not_depend_on_the_history
    {soup : HtmlParser} {net : Network} data now now' w w' r r' w1 w1' :
  extract_links (Ok data) now w = (Success r, w1) ->
  extract_links (Ok data) now' w' = (Success r', w1') ->
  Forall (fun key => field key r' = field key r)
    ["base_url"; "all_links"; "total_count"; "options"].
Proof.
  intros Hrun Hrun'.
  apply extract_links_Success_world in Hrun
    as (target_url & options & text & all_links & previous_data & new_links
        & (kvs & url & parsed_url & -> & Hurl & -> & -> & _)
        & Hfetch & Hextract & _ & _ & -> & _).
  apply extract_links_Success_world in Hrun'
    as (target_url' & options' & text' & all_links' & previous_data' & new_links'
        & (kvs' & url' & parsed_url' & [= <-] & Hurl' & -> & -> & _)
        & Hfetch' & Hextract' & _ & _ & -> & _).
  rewrite Hurl in Hurl'. injection Hurl' as <-.
  rewrite (fetched_unique _ _ _ Hfetch Hfetch') in Hextract'.
  rewrite Hextract in Hextract'. injection Hextract' as <-.
  by repeat constructor.
Qed.

End Dependence.

(** ** The further properties on the scenarios *)

Lemma site_request_valid :
  valid_request (urllib:=cpython_urllib) site_request site (JDict []).
Proof.
  exists [("url", JStr site)], site, (mkParseResult "https" "site.com" "" "" "" "").
  by split_and!.
Qed.

Lemma site_fetched :
  fetched (net:=one_page site scenario_a_html) site scenario_a_html.
Proof. by eexists. Qed.

Lemma history_written_only_on_success_witness :
  history_file
    (snd (extract_links (urllib:=cpython_urllib) (soup:=anchor_scanner)
            (order:=hash_order) (net:=unreachable "timeout")
            (Ok site_request) "t" after_first_visit))
  = history_file after_first_visit.
Proof.
  apply (history_written_only_on_success
           (urllib:=cpython_urllib) (soup:=anchor_scanner) (order:=hash_order)
           (net:=unreachable "timeout") (Ok site_request) "t" after_first_visit).
  intros result. by vm_compute.
Defined.

Lemma response_counts_and_order_witness :
  exists all_links new_links,
    field "all_links" second_visit_record = Some (JList (JStr <$> all_links)) /\
    field "new_links" second_visit_record = Some (JList (JStr <$> new_links)) /\
    field "total_count" second_visit_record
      = Some (JNum (Z.of_nat (length all_links))) /\
    field "new_count" second_visit_record
      = Some (JNum (Z.of_nat (length new_links))) /\
    length new_links <= length all_links /\
    NoDup new_links /\ StronglySorted String.le new_links.
Proof.
  apply (response_counts_and_order
           (urllib:=cpython_urllib) (soup:=anchor_scanner) (order:=hash_order)
           (net:=one_page site scenario_a_html)
           site_request "t1" after_first_visit second_visit_record
           (snd (visit site_request "t1" after_first_visit))).
  by vm_compute.
Defined.

Lemma successful_extraction_is_recorded_witness :
  exists older,
    fst (get_history (snd (visit site_request "t1" after_first_visit)))
      = Success (JList (second_visit_record :: older)) /\
    length (second_visit_record :: older) <= 50.
Proof.
  apply (successful_extraction_is_recorded
           (urllib:=cpython_urllib) (soup:=anchor_scanner) (order:=hash_order)
           (net:=one_page site scenario_a_html)
           site_request "t1" after_first_visit); by vm_compute.
Defined.

Lemma unsaved_extraction_still_succeeds_witness :
  history_file (snd (visit site_request "t" unlisted_world))
  = history_file unlisted_world.
Proof.
  apply (unsaved_extraction_still_succeeds
           (urllib:=cpython_urllib) (soup:=anchor_scanner) (order:=hash_order)
           (net:=one_page site scenario_a_html)
           site_request "t" unlisted_world
           (make_result site ["https://site.com/a"] ["https://site.com/a"] "t" (JDict [])));
    by vm_compute.
Defined.

Lemma repeated_extraction_has_no_new_links_witness :
  exists target_url all_links new_links options,
    fst (visit site_request "t0" empty_world)
      = Success (make_result target_url all_links new_links "t0" options) /\
    fst (visit site_request "t1" after_first_visit)
      = Success (make_result target_url all_links [] "t1" options).
Proof.
  destruct (repeated_extraction_has_no_new_links
              (urllib:=cpython_urllib) (soup:=anchor_scanner) (order:=hash_order)
              (net:=one_page site scenario_a_html)
              site_request "t0" "t1" empty_world
              (make_result site ["https://site.com/a"] ["https://site.com/a"] "t0" (JDict []))
              after_first_visit eq_refl eq_refl)
    as (target_url & all_links & new_links & options & Hfirst & Hsecond).
  exists target_url, all_links, new_links, options. split; [|exact Hsecond].
  by rewrite <-Hfirst.
Defined.

Lemma non_dictionary_item_fails_the_request_witness :
  visit site_request "t" broken_world
  = (ServerError AttributeError,
     with_data_dir (sent (net:=one_page site scenario_a_html) site broken_world)).
Proof.
  apply (non_dictionary_item_fails_the_request
           (urllib:=cpython_urllib) (soup:=anchor_scanner) (order:=hash_order)
           (net:=one_page site scenario_a_html)
           site_request site (JDict []) scenario_a_html ["https://site.com/a"]
           [] (JNum 1) [JDict [("base_url", JStr site)]] "t" broken_world);
    first [apply site_request_valid | apply site_fetched | by vm_compute | constructor].
Defined.

Lemma after_clear_every_link_is_new_witness :
  (exists target_url all_links options,
     make_result site ["https://site.com/a"] ["https://site.com/a"] "t" (JDict [])
     = make_result target_url all_links all_links "t" options) /\
  fst (get_history (snd (visit site_request "t" (snd (clear_history after_first_visit)))))
  = Success (JList [make_result site ["https://site.com/a"] ["https://site.com/a"]
                      "t" (JDict [])]).
Proof.
  apply (after_clear_every_link_is_new
           (urllib:=cpython_urllib) (soup:=anchor_scanner) (order:=hash_order)
           (net:=one_page site scenario_a_html)
           site_request "t" after_first_visit).
  by vm_compute.
Defined.

Lemma options_must_be_a_dictionary_witness :
  visit list_options_request "t" after_first_visit
  = (ServerError AttributeError,
     sent (net:=one_page site scenario_a_html) site after_first_visit).
Proof.
  apply (options_must_be_a_dictionary
           (urllib:=cpython_urllib) (soup:=anchor_scanner) (order:=hash_order)
           (net:=one_page site scenario_a_html)
           list_options_request site (JList [JStr "internal_only"]) scenario_a_html);
    try done; [|apply site_fetched].
  exists [("url", JStr site); ("options", JList [JStr "internal_only"])], site,
    (mkParseResult "https" "site.com" "" "" "" ""). by split_and!.
Defined.

Lemma empty_world_good : good_history empty_world.
Proof. exists []. split_and!; [done|simpl; lia|constructor]. Qed.

Lemma history_stays_good_witness :
  good_history
    (run (urllib:=cpython_urllib) (soup:=anchor_scanner) (order:=hash_order)
       session empty_world).
Proof.
  apply (history_stays_good (urllib:=cpython_urllib) (soup:=anchor_scanner)
           (order:=hash_order) session empty_world).
  apply empty_world_good.
Defined.

Lemma good_history_never_fails_the_diff_witness :
  exists new_links,
    fst (visit site_request "t" empty_world)
    = Success (make_result site ["https://site.com/a"] new_links "t" (JDict [])).
Proof.
  apply (good_history_never_fails_the_diff
           (urllib:=cpython_urllib) (soup:=anchor_scanner) (order:=hash_order)
           (net:=one_page site scenario_a_html)
           site_request site (JDict []) scenario_a_html ["https://site.com/a"]
           "t" empty_world);
    [apply empty_world_good | apply site_request_valid | apply site_fetched
    | by vm_compute].
Defined.

Lemma surrounding_blanks_are_ignored_witness :
  visit site_request "t" after_first_visit = visit padded_request "t" after_first_visit.
Proof.
  apply (surrounding_blanks_are_ignored
           (urllib:=cpython_urllib) (soup:=anchor_scanner) (order:=hash_order)
           (net:=one_page site scenario_a_html)
           [("url", JStr "  https://site.com ")] [("url", JStr site)]
           "  https://site.com " "t" after_first_visit); reflexivity.
Defined.

Lemma internal_links_are_filtered_links_witness :
  exists base,
    urlparse (UrlLib:=cpython_urllib) site = Ok base /\
    ["https://site.com/a"]
    = filter (fun link => same_domain (urllib:=cpython_urllib) (netloc base) link = true)
        ["https://other.com/x"; "https://site.com/a"] /\
    sublist ["https://site.com/a"] ["https://other.com/x"; "https://site.com/a"].
Proof.
  apply (internal_links_are_filtered_links
           (urllib:=cpython_urllib) (soup:=anchor_scanner) (order:=hash_order)
           scenario_a_html site [] (JBool false) (JBool true)); by vm_compute.
Defined.

Lemma port_selection_witness :
  select_port (parser:=decimal_int) (Some "eighty") ["app.py"; "8000"] = Raise ValueError /\
  select_port (parser:=decimal_int) (Some "8080") ["app.py"; "8000"] = Ok (8000%Z, false) /\
  select_port (parser:=decimal_int) None ["app.py"; "80a"] = Ok (5000%Z, true) /\
  select_port (parser:=decimal_int) (Some "8080") ["app.py"; "80a"] = Ok (8080%Z, true).
Proof.
  split_and!.
  - apply (proj1 (port_selection (parser:=decimal_int) (Some "eighty") ["app.py"; "8000"])
             "eighty"); reflexivity.
  - apply (proj1 (proj2 (port_selection (parser:=decimal_int) (Some "8080")
                            ["app.py"; "8000"])) "app.py" "8000" []);
      [reflexivity..|]. by intros text [= <-].
  - apply (proj1 (proj2 (proj2 (port_selection (parser:=decimal_int) None
                                   ["app.py"; "80a"]))
                    "app.py" "80a" [] eq_refl eq_refl)); reflexivity.
  - apply (proj2 (proj2 (proj2 (port_selection (parser:=decimal_int) (Some "8080")
                                   ["app.py"; "80a"]))
                    "app.py" "80a" [] eq_refl eq_refl) "8080"); reflexivity.
Defined.

Lemma normalized_link_is_stripped_witness :
  Urllib.has_char "#" "https://site.com/a" = false /\
  (truthy (JBool true) = true -> Urllib.has_char "?" "https://site.com/a" = false).
Proof.
  apply (normalized_link_is_stripped "/a?x=1#frag" site (JBool true) (JBool true));
    reflexivity.
Defined.

Lemma shuffled_html_same_hrefs href :
  href ∈ find_all_a_href (HtmlParser:=anchor_scanner) scenario_a_html <->
  href ∈ find_all_a_href (HtmlParser:=anchor_scanner) shuffled_html.
Proof. vm_compute find_all_a_href. rewrite !elem_of_cons, !elem_of_nil. tauto. Qed.

Lemma same_hrefs_same_links_witness :
  extract_links_from_html (urllib:=cpython_urllib) (order:=hash_order)
    (soup:=anchor_scanner) shuffled_html site JNull
  = extract_links_from_html (urllib:=cpython_urllib) (order:=hash_order)
      (soup:=anchor_scanner) scenario_a_html site JNull.
Proof.
  apply (same_hrefs_same_links (urllib:=cpython_urllib) (order:=hash_order)
           anchor_scanner anchor_scanner scenario_a_html shuffled_html site JNull).
  - reflexivity.
  - apply shuffled_html_same_hrefs.
Defined.

Lemma all_links_do_not_depend_on_the_history_witness :
  Forall (fun key =>
            field key second_visit_record
            = field key (make_result site ["https://site.com/a"] ["https://site.com/a"]
                           "t0" (JDict [])))
    ["base_url"; "all_links"; "total_count"; "options"].
Proof.
  apply (all_links_do_not_depend_on_the_history
           (urllib:=cpython_urllib) (soup:=anchor_scanner) (order:=hash_order)
           (net:=one_page site scenario_a_html)
           site_request "t0" "t1" empty_world after_first_visit
           (make_result site ["https://site.com/a"] ["https://site.com/a"] "t0" (JDict []))
           second_visit_record after_first_visit
           (snd (visit site_request "t1" after_first_visit))); by vm_compute.
Defined.
